(** * Cockpit cron manager: the crontab document model and the install pipeline

    A shallow embedding of [src/cronmanager/app.js].

    Strings.  A JavaScript string is a sequence of UTF-16 code units.  The
    model uses [string], whose characters are the code units 0..255; on that
    range the string primitives used by the program ([trim], [trimEnd],
    [split] with the two regular expressions, [RegExp.test], [toLowerCase],
    [indexOf], [join]) are modelled exactly.  Code units above 255 are
    outside the model.

    Effects.  The program keeps its state in variables of one closure
    ([rawCrontab], [parsedLines], [currentUser]) and in elements of the page
    (the user selector, the status line, the error container); the model
    passes a [Session] record explicitly.  The status line and the error
    container are taken to be present; the list and the dialogs, which no
    decision of the program reads, are left out.  An [async] function runs
    synchronously up to its next [await] of [cockpit.spawn]; the model
    represents what is left of it as a [Task] whose continuation receives the
    outcome of the command and the session as it is at that moment.  What a
    [catch] receives is taken to be an object. *)

From Stdlib Require Import String Ascii List Bool Arith ZArith Lia Sorted.
Import ListNotations.
Open Scope list_scope.
Open Scope string_scope.

(* ================================================================== *)
(** ** JavaScript string primitives *)
(* ================================================================== *)

Module JS.

Definition LF : ascii := "010"%char.
Definition CR : ascii := "013"%char.
Definition hash : ascii := "#"%char.

(** The one-character string holding a line feed. *)
Definition nl : string := String LF "".

(** White space and line terminators of ECMAScript ([\s] of a regular
    expression and what [trim] strips), among the code units 0..255:
    TAB, LF, VT, FF, CR, SP and NBSP. *)
Definition isWhiteSpace (c : ascii) : bool :=
  match N_of_ascii c with
  | 9%N | 10%N | 11%N | 12%N | 13%N | 32%N | 160%N => true
  | _ => false
  end.

Definition isEmpty (s : string) : bool :=
  match s with
  | "" => true
  | String _ _ => false
  end.

(** [Boolean(s)] for a string: true unless the string is empty. *)
Definition truthy (s : string) : bool := negb (isEmpty s).

(** [String.prototype.trimStart]. *)
Fixpoint trimStart (s : string) : string :=
  match s with
  | "" => ""
  | String c r => if isWhiteSpace c then trimStart r else s
  end.

(** [String.prototype.trimEnd]. *)
Fixpoint trimEnd (s : string) : string :=
  match s with
  | "" => ""
  | String c r =>
      let r' := trimEnd r in
      if isWhiteSpace c && isEmpty r' then "" else String c r'
  end.

(** [String.prototype.trim]. *)
Definition trim (s : string) : string := trimEnd (trimStart s).

(** Puts one character in front of the first element of a list of
    fields (the field being read). *)
Definition consHead (c : ascii) (l : list string) : list string :=
  match l with
  | [] => [String c ""]
  | f :: fs => String c f :: fs
  end.

(** [s.split(/\s+/)], reading [s] from the left.  [inRun] tells that the
    previous character belonged to a run of white space, which has already
    closed a field.  A run at the start of [s] closes an empty first field
    and a run at the end leaves an empty last one, as in JavaScript;
    the empty string gives one empty field. *)
Fixpoint splitWsFrom (inRun : bool) (s : string) : list string :=
  match s with
  | "" => [""]
  | String c r =>
      if isWhiteSpace c
      then (if inRun then splitWsFrom true r else "" :: splitWsFrom true r)
      else consHead c (splitWsFrom false r)
  end.

Definition splitWs (s : string) : list string := splitWsFrom false s.

(** [s.split(/\r?\n/)]: a line ends at a line feed, or at a carriage return
    that is immediately followed by a line feed.  A carriage return alone
    stays in its line. *)
Fixpoint splitLines (s : string) : list string :=
  match s with
  | "" => [""]
  | String c r =>
      if Ascii.eqb c LF then "" :: splitLines r
      else
        match r with
        | String c' r' =>
            if Ascii.eqb c CR && Ascii.eqb c' LF
            then "" :: splitLines r'
            else consHead c (splitLines r)
        | "" => consHead c (splitLines r)
        end
  end.

(** [/^\s*#/.test(s)]. *)
Fixpoint testLeadingHash (s : string) : bool :=
  match s with
  | "" => false
  | String c r =>
      if Ascii.eqb c hash then true
      else if isWhiteSpace c then testLeadingHash r
      else false
  end.

(** [Array.prototype.join]. *)
Fixpoint join (sep : string) (l : list string) : string :=
  match l with
  | [] => ""
  | [x] => x
  | x :: rest => x ++ sep ++ join sep rest
  end.

(** [s.startsWith(p)]. *)
Fixpoint startsWith (p s : string) : bool :=
  match p, s with
  | "", _ => true
  | String _ _, "" => false
  | String a p', String b s' => Ascii.eqb a b && startsWith p' s'
  end.

(** [s.indexOf(p) !== -1]. *)
Fixpoint includes (p s : string) : bool :=
  startsWith p s ||
  match s with
  | "" => false
  | String _ r => includes p r
  end.

(** [s.endsWith(p)] for the one-character pattern [p = c]. *)
Fixpoint endsWithChar (c : ascii) (s : string) : bool :=
  match s with
  | "" => false
  | String a "" => Ascii.eqb a c
  | String _ r => endsWithChar c r
  end.

(** [String.prototype.toLowerCase] on the code units 0..255: the letters
    A..Z, and the capital letters of Latin-1 (0xC0..0xDE but the
    multiplication sign 0xD7). *)
Definition toLowerChar (c : ascii) : ascii :=
  let n := N_of_ascii c in
  if ((65 <=? n) && (n <=? 90))%N then ascii_of_N (n + 32)
  else if ((192 <=? n) && (n <=? 222) && negb (n =? 215))%N
       then ascii_of_N (n + 32)
  else c.

Fixpoint toLowerCase (s : string) : string :=
  match s with
  | "" => ""
  | String c r => String (toLowerChar c) (toLowerCase r)
  end.

(** Canonicalisation of a code unit by a regular expression with the [i]
    flag (and without [u]): the upper-case mapping when it is a single code
    unit, except that a code unit above 127 never maps into 0..127.  The
    result may leave 0..255 (0xFF and 0xB5 do), so it is an [N]. *)
Definition canonicalize (c : ascii) : N :=
  let n := N_of_ascii c in
  if ((97 <=? n) && (n <=? 122))%N then (n - 32)%N
  else if ((224 <=? n) && (n <=? 254) && negb (n =? 247))%N then (n - 32)%N
  else if (n =? 255)%N then 376%N
  else if (n =? 181)%N then 924%N
  else n.

(** A literal [p] of a pattern with the [i] flag, matched at the start
    of [s]. *)
Fixpoint startsWithCI (p s : string) : bool :=
  match p, s with
  | "", _ => true
  | String _ _, "" => false
  | String a p', String b s' =>
      N.eqb (canonicalize a) (canonicalize b) && startsWithCI p' s'
  end.

(** [/p1|p2|.../i.test(s)] for literal alternatives. *)
Fixpoint testAnyCI (alts : list string) (s : string) : bool :=
  existsb (fun p => startsWithCI p s) alts ||
  match s with
  | "" => false
  | String _ r => testAnyCI alts r
  end.

End JS.

Import JS.

(* ================================================================== *)
(** ** The crontab document: validation and parsing *)
(* ================================================================== *)

Inductive LineType := entry | comment | blank.

(** One element of [parsedLines]: [{type, text, lineIdx}]. *)
Record Line := mkLine { type : LineType; text : string; lineIdx : nat }.

(** [validateCron(expr)]. *)
Definition validateCron (expr : string) : bool :=
  let parts := splitWs (trim expr) in
  if ((List.length parts <? 5) || (7 <? List.length parts))%nat then false
  else forallb truthy parts.

(** The body of the [forEach] of [parseCrontab], for the line [l] at
    position [idx]. *)
Definition classifyLine (idx : nat) (l : string) : Line :=
  if isEmpty (trim l) then mkLine blank l idx
  else if testLeadingHash l then mkLine comment l idx
  else mkLine entry l idx.

Fixpoint classifyFrom (idx : nat) (lines : list string) : list Line :=
  match lines with
  | [] => []
  | l :: rest => classifyLine idx l :: classifyFrom (S idx) rest
  end.

(** [parseCrontab(raw)]. *)
Definition parseCrontab (raw : string) : list Line :=
  classifyFrom 0 (splitLines raw).

(** The text [deleteEntryAt] builds from a list of line texts:
    [newLines.join("\n") + "\n"]. *)
Definition serialize (texts : list string) : string :=
  join nl texts ++ nl.


(* ================================================================== *)
(** ** The command channel: what [cockpit.spawn] gives back *)
(* ================================================================== *)

(** A stream captured in a failure: a string, or an array of chunks. *)
Inductive Captured := CString (s : string) | CArray (chunks : list string).

(** The object a rejected [cockpit.spawn] (or a [throw]) hands to [catch].
    A field that is [undefined] is [None].  [asString] is what
    [err.toString()] returns and [asJSON] what [JSON.stringify(err)]
    returns: both are computed outside of the program. *)
Record Failure := mkFailure {
  problem : option string;
  message : option string;
  stderr : option Captured;
  stdout : option Captured;
  asString : string;
  asJSON : string
}.

(** The value of a resolved [cockpit.spawn], in the shapes the program
    handles: a string, an object with an optional [stdout], an array. *)
Inductive SpawnValue :=
| VString (s : string)
| VObject (out : option string)
| VArray (chunks : list string).

Inductive Outcome := Resolved (res : SpawnValue) | Rejected (err : Failure).

(** [new Error(msg)] as [catch] sees it. *)
Definition jsError (msg : string) : Failure :=
  mkFailure None (Some msg) None None ("Error: " ++ msg) "{}".

(** Truthiness of an optional string: [undefined], [null] and the empty
    string are falsy. *)
Definition truthyOpt (x : option string) : bool :=
  match x with
  | Some v => truthy v
  | None => false
  end.

(** Truthiness of a captured stream: an array is truthy even when empty. *)
Definition truthyCaptured (x : option Captured) : bool :=
  match x with
  | Some (CString v) => truthy v
  | Some (CArray _) => true
  | None => false
  end.

(** [x || null]. *)
Definition orNull (x : option string) : option string :=
  if truthyOpt x then x else None.

(** [x || y] where [y] is a string. *)
Definition orElse (x : option string) (y : string) : string :=
  match x with
  | Some v => if truthy v then v else y
  | None => y
  end.

(** The patterns of the regular expression of [isAccessDenied]. *)
Definition accessDeniedPatterns : list string :=
  ["permission denied"; "access denied"; "authorization"; "not authorized"].

(** [x === v] for a string [v]. *)
Definition strictEq (x : option string) (v : string) : bool :=
  match x with
  | Some u => String.eqb u v
  | None => false
  end.

(** [isAccessDenied(err)], for an [err] that is an object. *)
Definition isAccessDenied (err : Failure) : bool :=
  if strictEq (problem err) "access-denied" then true
  else
    let msg := orElse (message err) (asString err) in
    testAnyCI accessDeniedPatterns msg.

(** The [map] of [errorText]: an array is joined, a string is itself. *)
Definition normalizePart (p : Captured) : string :=
  match p with
  | CArray chunks => join "" chunks
  | CString v => v
  end.

(** [if (x) parts.push(x)] for a captured stream, kept in the normal form
    that the later [map] gives it. *)
Definition pushCaptured (x : option Captured) (parts : list string) : list string :=
  match x with
  | Some p => if truthyCaptured x then (parts ++ [normalizePart p])%list else parts
  | None => parts
  end.

(** [if (x) parts.push(x)] for a string ([String(p)] is [p] itself). *)
Definition pushString (x : option string) (parts : list string) : list string :=
  match x with
  | Some v => if truthy v then (parts ++ [v])%list else parts
  | None => parts
  end.

(** [errorText(err)], for an [err] that is an object. *)
Definition errorText (err : Failure) : string :=
  let parts := [] in
  let parts := pushCaptured (stderr err) parts in
  let parts := pushCaptured (stdout err) parts in
  let parts := pushString (message err) parts in
  let parts := pushString (problem err) parts in
  join nl parts.

(* ================================================================== *)
(** ** The session: the variables of the closure *)
(* ================================================================== *)

(** [userSelect] is [None] when the page has no selector, and otherwise
    holds the selector's value (empty when nothing is selected).  [status]
    is the text of the status line, [error] the text of the error container
    ([None] when it is hidden), [journal] what [log] wrote, latest first. *)
Record Session := mkSession {
  rawCrontab : string;
  parsedLines : list Line;
  currentUser : option string;
  userSelect : option string;
  status : string;
  error : option string;
  journal : list string
}.

Definition withDocument (raw : string) (lines : list Line) (s : Session) : Session :=
  mkSession raw lines (currentUser s) (userSelect s) (status s) (error s) (journal s).

(** [showStatus(msg)]. *)
Definition showStatus (msg : string) (s : Session) : Session :=
  mkSession (rawCrontab s) (parsedLines s) (currentUser s) (userSelect s)
            msg (error s) (journal s).

(** [setError(msg)]. *)
Definition setError (msg : string) (s : Session) : Session :=
  mkSession (rawCrontab s) (parsedLines s) (currentUser s) (userSelect s)
            (status s) (Some msg) (journal s).

(** [clearError()]. *)
Definition clearError (s : Session) : Session :=
  mkSession (rawCrontab s) (parsedLines s) (currentUser s) (userSelect s)
            (status s) None (journal s).

(** [log(msg)], without the time stamp. *)
Definition log (msg : string) (s : Session) : Session :=
  mkSession (rawCrontab s) (parsedLines s) (currentUser s) (userSelect s)
            (status s) (error s) (msg :: journal s).

(** [getSelectedUserValue()]. *)
Definition getSelectedUserValue (s : Session) : option string :=
  match userSelect s with
  | None => orNull (currentUser s)
  | Some v => if truthy v then Some v else orNull (currentUser s)
  end.

(** [getUserForCrontabFlag()]. *)
Definition getUserForCrontabFlag (s : Session) : option string :=
  orNull (getSelectedUserValue s).

(** [isDifferentUser()]. *)
Definition isDifferentUser (s : Session) : bool :=
  match getUserForCrontabFlag s with
  | None => false
  | Some target =>
      match currentUser s with
      | None => true
      | Some me => if truthy me then negb (String.eqb target me) else true
      end
  end.

(** [userDisplayName()]. *)
Definition userDisplayName (s : Session) : string :=
  match getUserForCrontabFlag s with
  | None => orElse (currentUser s) "current user"
  | Some target => target
  end.

(** The horizontal ellipsis of the two progress messages.  U+2026 is above
    255; its three UTF-8 bytes stand for it.  No decision of the program
    reads a status text. *)
Definition ellipsis : string :=
  String (ascii_of_nat 226) (String (ascii_of_nat 128) (String (ascii_of_nat 166) "")).

(** The double quote, for the one message that holds it. *)
Definition dquote : string := String (ascii_of_nat 34) "".

(* ================================================================== *)
(** ** Asynchronous functions *)
(* ================================================================== *)

(** What is left of an [async] function: nothing, or an [await] of
    [spawnCommand(args, requireSuperuser)] with the code that follows it.
    The continuation reads the session as it is when the command answers. *)
#[warnings="-register-all"]
Inductive Task :=
| Done
| Await (args : list string) (requireSuperuser : bool)
        (k : Outcome -> Session -> Session * Task).

(** [err.message || JSON.stringify(err)]. *)
Definition describe (err : Failure) : string :=
  orElse (message err) (asJSON err).

(** The three ways the [catch] of [loadCrontab] goes. *)
Inductive LoadFailureKind := AccessDenied | NoExistingCrontab | Generic.

Definition loadFailureKind (err : Failure) : LoadFailureKind :=
  if isAccessDenied err then AccessDenied
  else if includes "no crontab for" (toLowerCase (errorText err))
       then NoExistingCrontab
  else Generic.

(** The [try] part of [loadCrontab] after the command resolved.
    [renderList] only rebuilds the page from the session. *)
Definition loadResolved (res : SpawnValue) (s : Session) : Session :=
  let out :=
    match res with
    | VString v => v
    | VObject (Some v) => if truthy v then v else ""
    | VObject None => ""
    | VArray chunks => join "" chunks
    end in
  let s := withDocument out (parseCrontab out) s in
  let s := showStatus ("Crontab loaded for " ++ userDisplayName s) s in
  log ("Loaded crontab for " ++ userDisplayName s ++ ".") s.

(** The [catch] part of [loadCrontab]. *)
Definition loadRejected (err : Failure) (s : Session) : Session :=
  match loadFailureKind err with
  | AccessDenied =>
      let s := setError ("Admin access required to read crontab for "
                         ++ userDisplayName s ++ ".") s in
      let s := showStatus "Permission denied" s in
      log ("Access denied loading crontab for " ++ userDisplayName s ++ ".") s
  | NoExistingCrontab =>
      let s := withDocument "" [] s in
      let s := showStatus ("No crontab for " ++ userDisplayName s) s in
      log ("No crontab for " ++ userDisplayName s ++ ".") s
  | Generic =>
      let s := setError ("Failed to read crontab: " ++ describe err) s in
      let s := showStatus "Error loading crontab" s in
      log ("Error loading crontab: " ++ describe err) s
  end.

(** [loadCrontab()]. *)
Definition loadCrontab (s : Session) : Session * Task :=
  let s := showStatus ("Loading crontab for " ++ userDisplayName s ++ ellipsis) s in
  let args :=
    match getUserForCrontabFlag s with
    | Some userFlag => ["crontab"; "-u"; userFlag; "-l"]
    | None => ["crontab"; "-l"]
    end in
  (s, Await args (isDifferentUser s)
        (fun o s' =>
           match o with
           | Resolved res => (loadResolved res s', Done)
           | Rejected err => (loadRejected err s', Done)
           end)).

(** The [catch] part of [installCrontab]. *)
Definition installRejected (err : Failure) (s : Session) : Session :=
  let s :=
    if isAccessDenied err
    then
      let s := setError ("Admin access required to write crontab for "
                         ++ userDisplayName s ++ ".") s in
      log ("Access denied installing crontab for " ++ userDisplayName s ++ ".") s
    else
      let s := setError ("Failed to install crontab: " ++ describe err) s in
      log ("Install failed: " ++ describe err) s in
  showStatus "Install failed" s.

(** The path [installCrontab] reads off the answer of [mktemp]:
    [mk.trim()] for a string, [mk.stdout.trim()] for an object with a
    non-empty [stdout], and [undefined] otherwise. *)
Definition tmpOf (mk : SpawnValue) : option string :=
  match mk with
  | VString v => Some (trim v)
  | VObject (Some v) => if truthy v then Some (trim v) else None
  | VObject None => None
  | VArray _ => None
  end.

(** The command of the write step. *)
Definition writeCmd (tmp newContent : string) : list string :=
  ["/bin/sh"; "-c";
   "cat > " ++ tmp ++ " <<'EOF'" ++ nl ++ newContent ++ nl ++ "EOF" ++ nl].

(** The command of the install step. *)
Definition installArgs (s : Session) (tmp : string) : list string :=
  match getUserForCrontabFlag s with
  | Some userFlag => ["crontab"; "-u"; userFlag; tmp]
  | None => ["crontab"; tmp]
  end.

(** The command of the removal step. *)
Definition removeCmd (tmp : string) : list string := ["rm"; "-f"; tmp].

(** [installCrontab] after [rm] answered. *)
Definition afterRemove (o : Outcome) (s : Session) : Session * Task :=
  match o with
  | Rejected err => (installRejected err s, Done)
  | Resolved _ =>
      let s := log ("Installed updated crontab for " ++ userDisplayName s ++ ".") s in
      let s := showStatus ("Crontab installed for " ++ userDisplayName s) s in
      loadCrontab s
  end.

(** [installCrontab] after [crontab <tmp>] answered. *)
Definition afterInstall (tmp : string) (o : Outcome) (s : Session) : Session * Task :=
  match o with
  | Rejected err => (installRejected err s, Done)
  | Resolved _ => (s, Await (removeCmd tmp) (isDifferentUser s) afterRemove)
  end.

(** [installCrontab] after the write step answered. *)
Definition afterWrite (tmp : string) (o : Outcome) (s : Session) : Session * Task :=
  match o with
  | Rejected err => (installRejected err s, Done)
  | Resolved _ =>
      (s, Await (installArgs s tmp) (isDifferentUser s) (afterInstall tmp))
  end.

(** [installCrontab] after [mktemp] answered. *)
Definition afterMktemp (newContent : string) (o : Outcome) (s : Session)
  : Session * Task :=
  match o with
  | Rejected err => (installRejected err s, Done)
  | Resolved mk =>
      match tmpOf mk with
      | Some tmp =>
          if truthy tmp
          then (s, Await (writeCmd tmp newContent) (isDifferentUser s)
                     (afterWrite tmp))
          else (installRejected (jsError "Failed to create temp file on host.") s,
                Done)
      | None =>
          (installRejected (jsError "Failed to create temp file on host.") s, Done)
      end
  end.

(** The command of the first step. *)
Definition mktempCmd : list string := ["mktemp"; "-t"; "cockpit-cron-XXXXXX"].

(** [installCrontab(newContent)]. *)
Definition installCrontab (newContent : string) (s : Session) : Session * Task :=
  let s := showStatus ("Installing crontab for " ++ userDisplayName s ++ ellipsis) s in
  (s, Await mktempCmd (isDifferentUser s) (afterMktemp newContent)).

(** The content [addEntry] builds for a valid schedule. *)
Definition addContent (raw expr cmd : string) : string :=
  let line := trim expr ++ " " ++ trim cmd in
  if truthy raw && negb (isEmpty (trim raw))
  then trimEnd raw ++ nl ++ line ++ nl
  else line ++ nl.

(** [addEntry(expr, cmd)]. *)
Definition addEntry (expr cmd : string) (s : Session) : Session * Task :=
  if negb (validateCron expr)
  then (setError ("Invalid cron expression. Provide a 5-field schedule (e.g. "
                  ++ dquote ++ "*/10 * * * *" ++ dquote ++ ").") s, Done)
  else
    let s := clearError s in
    installCrontab (addContent (rawCrontab s) expr cmd) s.

(** [parsedLines.filter((_, i) => i !== parsedIndex)], counting [i]
    from [from]. *)
Fixpoint dropIndexFrom (from : nat) (parsedIndex : Z) (lines : list Line) : list Line :=
  match lines with
  | [] => []
  | l :: rest =>
      if Z.eqb (Z.of_nat from) parsedIndex
      then dropIndexFrom (S from) parsedIndex rest
      else l :: dropIndexFrom (S from) parsedIndex rest
  end.

(** The [newLines] of [deleteEntryAt]. *)
Definition newLinesOf (lines : list Line) (parsedIndex : Z) : list string :=
  map text (dropIndexFrom 0 parsedIndex lines).

(** [deleteEntryAt(parsedIndex)]. *)
Definition deleteEntryAt (parsedIndex : Z) (s : Session) : Session * Task :=
  let newLines := newLinesOf (parsedLines s) parsedIndex in
  let newContent := serialize newLines in
  installCrontab newContent s.

(** The click handler of [editorSave], up to the end of its [await]. *)
Definition saveEditor (content : string) (s : Session) : Session * Task :=
  installCrontab (if endsWithChar LF content then content else content ++ nl) s.

(* ================================================================== *)
(** ** Running tasks *)
(* ================================================================== *)

(** A command handed to [cockpit.spawn], with its [superuser] option. *)
Definition Command : Type := list string * bool.

(** One suspended [async] function. *)
Record Pending := mkPending {
  command : Command;
  resume : Outcome -> Session -> Session * Task
}.

(** The client as the event loop sees it: the session, the functions
    suspended at an [await] in the order they suspended, and every command
    issued so far. *)
Record World := mkWorld {
  session : Session;
  inflight : list Pending;
  issued : list Command
}.

(** Takes in the result of running a piece of code: a finished function
    leaves the session, a suspended one is added to those in flight and its
    command is issued. *)
Definition settle (r : Session * Task) (others : list Pending) (trace : list Command)
  : World :=
  match snd r with
  | Done => mkWorld (fst r) others trace
  | Await args su k =>
      mkWorld (fst r) (others ++ [mkPending (args, su) k])%list
              (trace ++ [(args, su)])%list
  end.

(** An event handler calls the [async] function [f]. *)
Definition call (f : Session -> Session * Task) (w : World) : World :=
  settle (f (session w)) (inflight w) (issued w).

Fixpoint removeNth {A : Type} (i : nat) (l : list A) : list A :=
  match i, l with
  | _, [] => []
  | O, _ :: rest => rest
  | S j, x :: rest => x :: removeNth j rest
  end.

(** The command of the [i]-th suspended function answers with [o]. *)
Definition answer (i : nat) (o : Outcome) (w : World) : option World :=
  match nth_error (inflight w) i with
  | None => None
  | Some p =>
      Some (settle (resume p o (session w)) (removeNth i (inflight w)) (issued w))
  end.

(** One function alone: its commands answer one after the other with the
    outcomes of [script]. *)
Fixpoint answerAll (script : list Outcome) (w : World) : World :=
  match script with
  | [] => w
  | o :: rest =>
      match answer 0 o w with
      | Some w' => answerAll rest w'
      | None => w
      end
  end.

Definition idle (s : Session) : World := mkWorld s [] [].

(** The awaited command of [t] answers with [o] while the session is [s]. *)
Definition resumeWith (t : Task) (o : Outcome) (s : Session) : Session * Task :=
  match t with
  | Done => (s, Done)
  | Await _ _ k => k o s
  end.

(** The requests that change the crontab. *)
Inductive Mutation :=
| Add (expr cmd : string)
| Delete (parsedIndex : Z)
| ReplaceAll (content : string).

Definition perform (m : Mutation) : Session -> Session * Task :=
  match m with
  | Add expr cmd => addEntry expr cmd
  | Delete parsedIndex => deleteEntryAt parsedIndex
  | ReplaceAll content => saveEditor content
  end.

(* ================================================================== *)
(** ** Notions used in the statements, and the inputs of the examples *)
(* ================================================================== *)

(** No carriage return of [s] is immediately followed by a line feed:
    [s] uses line feeds alone as line endings. *)
Fixpoint noCRLF (s : string) : bool :=
  match s with
  | "" => true
  | String c r =>
      match r with
      | String c' _ => negb (Ascii.eqb c CR && Ascii.eqb c' LF) && noCRLF r
      | "" => true
      end
  end.



(** [s] is not empty and its last character is not white space. *)
Fixpoint endsNonWs (s : string) : bool :=
  match s with
  | "" => false
  | String c "" => negb (isWhiteSpace c)
  | String _ r => endsNonWs r
  end.

Definition nonEmptyFields (l : list string) : Prop := Forall (fun f => f <> "") l.

(** The answer of [loadCrontab]'s command is a rejection with [err],
    arriving while the session is [s]; [s0] is the session [loadCrontab]
    was called in. *)
Definition loadFails (s0 : Session) (err : Failure) (s : Session) : Session * Task :=
  resumeWith (snd (loadCrontab s0)) (Rejected err) s.

(** A failure that says both: [crontab -u bob -l] refused for want of
    privilege, with the no-crontab phrase in its captured stream. *)
Definition deniedAndNoCrontab : Failure :=
  mkFailure (Some "access-denied") (Some "Permission denied")
            (Some (CString "no crontab for bob")) None
            "Permission denied" "{}".

(** A session that holds a loaded crontab of one line. *)
Definition loadedSession : Session :=
  mkSession ("0 2 * * * /usr/local/bin/backup.sh" ++ nl)
            (parseCrontab ("0 2 * * * /usr/local/bin/backup.sh" ++ nl))
            (Some "alice") (Some "bob") "Crontab loaded for bob" None [].

(** What [crontab -l] answers for a user without a crontab. *)
Definition noCrontabForBob : Failure :=
  mkFailure None (Some "crontab exited with code 1")
            (Some (CString ("No Crontab For bob" ++ nl))) None
            "crontab exited with code 1" "{}".

(** [s] holds no line feed. *)
Fixpoint noLF (s : string) : bool :=
  match s with
  | "" => true
  | String c r => negb (Ascii.eqb c LF) && noLF r
  end.

(** [c] followed by [r] does not begin with a line ending. *)
Definition noLineEndAt (c : ascii) (r : string) : bool :=
  negb (Ascii.eqb c LF) &&
  match r with
  | String c' _ => negb (Ascii.eqb c CR && Ascii.eqb c' LF)
  | "" => true
  end.

(** The line [addEntry] writes: [expr.trim() + ' ' + cmd.trim()]. *)
Definition newLine (expr cmd : string) : string := trim expr ++ " " ++ trim cmd.

(** The lines [addEntry] keeps of the raw content: none when it is blank,
    else those of the content without its trailing white space. *)
Definition keptLines (raw : string) : list string :=
  if isEmpty (trim raw) then [] else splitLines (trimEnd raw).

(** The install pipeline alone in a session [s], its commands answered
    in order by [script]. *)
Definition installRun (newContent : string) (s : Session) (script : list Outcome)
  : World :=
  answerAll script (call (installCrontab newContent) (idle s)).

Ltac run_pipeline :=
  cbn [answerAll answer settle session inflight issued snd fst nth_error
       resume command app removeNth map
       afterMktemp afterWrite afterInstall afterRemove tmpOf].

(** A content whose first line is the word that ends the here-document. *)
Definition contentWithDelimiter : string :=
  "EOF" ++ nl ++ "touch /tmp/owned" ++ nl.

(** What [crontab <file>] answers for a file it cannot read as a crontab. *)
Definition badCrontab : Failure :=
  mkFailure None (Some "crontab exited with code 1")
            (Some (CString ("errors in crontab file, can't install." ++ nl))) None
            "crontab exited with code 1" "{}".

(** The worlds a session that starts in [s0] can be in: mutations are
    requested at any time, and any command in flight may answer next,
    with any outcome. *)
Inductive Reachable (s0 : Session) : World -> Prop :=
| reach_idle : Reachable s0 (idle s0)
| reach_request (m : Mutation) (w : World) :
    Reachable s0 w -> Reachable s0 (call (perform m) w)
| reach_answer (i : nat) (o : Outcome) (w w' : World) :
    Reachable s0 w -> answer i o w = Some w' -> Reachable s0 w'.

(** Two requests to add an entry, the second made before any command of
    the first has answered. *)
Definition twoAdds : World :=
  call (perform (Add "0 4 * * *" "/bin/b"))
       (call (perform (Add "0 3 * * *" "/bin/a")) (idle loadedSession)).

(** The requests that get past the checks of their handler: an [Add] with
    a valid schedule, and every [Delete] and [ReplaceAll]. *)
Definition accepted (m : Mutation) : bool :=
  match m with
  | Add expr _ => validateCron expr
  | Delete _ => true
  | ReplaceAll _ => true
  end.

(* ================================================================== *)
(** ** The rest of the page: rendering, the dialogs, the form, start-up *)
(* ================================================================== *)

(** One row of the list [renderList] builds: the notice shown for an empty
    crontab, or the row of a parsed line.  The row of an entry carries a
    Delete button whose click calls [confirmDelete(idx)]. *)
Inductive Row :=
| EmptyNotice (msg : string)
| EntryRow (meta : string) (idx : nat)
| CommentRow (c : string)
| BlankRow.

(** The body of the [forEach] of [renderList]. *)
Definition renderRow (lineObj : Line) (idx : nat) : Row :=
  match type lineObj with
  | entry => EntryRow (text lineObj) idx
  | comment => CommentRow (text lineObj)
  | blank => BlankRow
  end.

Fixpoint renderFrom (idx : nat) (lines : list Line) : list Row :=
  match lines with
  | [] => []
  | lineObj :: rest => renderRow lineObj idx :: renderFrom (S idx) rest
  end.

(** [renderList()]: the children of the list element afterwards. *)
Definition renderList (s : Session) : list Row :=
  if negb (truthy (rawCrontab s)) || isEmpty (trim (rawCrontab s))
  then [EmptyNotice ("No crontab entries for " ++ userDisplayName s ++ ".")]
  else renderFrom 0 (parsedLines s).

(** The page around the session: the client, the index kept for the
    confirmation dialog ([toDeleteIndex], [None] for [null]), whether
    that dialog is open, and its text. *)
Record Page := mkPage {
  world : World;
  toDeleteIndex : option Z;
  confirmOpen : bool;
  confirmText : string
}.

(** [confirmDelete(index)].  Reading [parsedLines[index].text] of a
    missing line throws after the index is stored and the dialog shown;
    the text of the dialog then stays what it was. *)
Definition confirmDelete (index : Z) (p : Page) : Page :=
  let shown :=
    match (if (index <? 0)%Z then None
           else nth_error (parsedLines (session (world p))) (Z.to_nat index)) with
    | Some lineObj => "Remove this entry?" ++ nl ++ nl ++ text lineObj
    | None => confirmText p
    end in
  mkPage (world p) (Some index) true shown.

(** The click handler of [confirmNo]. *)
Definition confirmNo (p : Page) : Page :=
  mkPage (world p) None false (confirmText p).

(** The click handler of [confirmYes]. *)
Definition confirmYes (p : Page) : Page :=
  match toDeleteIndex p with
  | Some index =>
      mkPage (call (deleteEntryAt index) (world p)) None false (confirmText p)
  | None => mkPage (world p) None false (confirmText p)
  end.

(** The submit handler of [addForm], up to the end of its [await], for
    the values of the two fields. *)
Definition submitAdd (exprValue cmdValue : string) (s : Session) : Session * Task :=
  let expr := trim exprValue in
  let cmd := trim cmdValue in
  if negb (truthy expr) || negb (truthy cmd)
  then (setError "Both schedule and command are required." s, Done)
  else
    let s := clearError s in
    let s := log ("Adding entry: " ++ expr ++ " " ++ cmd) s in
    addEntry expr cmd s.

(** The change handler of [userSelect], after the browser has set the
    value of the selector to [v]. *)
Definition selectUser (v : string) (s : Session) : Session * Task :=
  let s := mkSession (rawCrontab s) (parsedLines s) (currentUser s) (Some v)
                     (status s) (error s) (journal s) in
  let s := withDocument "" [] s in
  loadCrontab s.

(** What the user can do on the page that reaches the host. *)
Inductive Action :=
| Mutate (m : Mutation)
| Refresh
| Select (v : string)
| SubmitAdd (exprValue cmdValue : string).

Definition act (a : Action) : Session -> Session * Task :=
  match a with
  | Mutate m => perform m
  | Refresh => loadCrontab
  | Select v => selectUser v
  | SubmitAdd exprValue cmdValue => submitAdd exprValue cmdValue
  end.

(** The worlds a session that starts in [s0] can be in, under every
    order of actions and answers. *)
Inductive Evolves (s0 : Session) : World -> Prop :=
| evolves_idle : Evolves s0 (idle s0)
| evolves_act (a : Action) (w : World) :
    Evolves s0 w -> Evolves s0 (call (act a) w)
| evolves_answer (i : nat) (o : Outcome) (w w' : World) :
    Evolves s0 w -> answer i o w = Some w' -> Evolves s0 w'.

(** An [async] function that returns a value: what is left of it is the
    value, or an [await] of [cockpit.spawn(args)] and the code after it. *)
#[warnings="-register-all"]
Inductive Job (A : Type) :=
| Return (a : A)
| Suspend (args : list string) (requireSuperuser : bool)
          (k : Outcome -> Session -> Session * Job A).

Arguments Return {A} a.
Arguments Suspend {A} args requireSuperuser k.

(** How [checkCronAvailable] ends: it returns, or it throws
    [new Error('crontab-missing')]. *)
Inductive Completion := Returned | Threw (err : Failure).

(** The test of one [systemctl is-active] answer:
    [out && out.trim() === 'active']. *)
Definition reportsActive (res : SpawnValue) : bool :=
  let out :=
    match res with
    | VString v => v
    | VObject (Some v) => if truthy v then v else ""
    | VObject None => ""
    | VArray _ => ""
    end in
  truthy out && String.eqb (trim out) "active".

(** The end of [checkCronAvailable], after the loop over the services. *)
Definition afterProbes (active : bool) (s : Session) : Session * Job Completion :=
  if negb active
  then
    let s := setError ("No system cron service (cron/crond) is reported as active. "
                       ++ "crontab may still work but scheduling might not run.") s in
    let s := showStatus "Cron service not active" s in
    let s := log "system cron service not active (cron/crond not running)." s in
    (s, Return Returned)
  else
    let s := showStatus "Cron available" s in
    let s := clearError s in
    (s, Return Returned).

(** The loop of [checkCronAvailable] over the service names left. *)
Fixpoint probeServices (services : list string) (s : Session)
  : Session * Job Completion :=
  match services with
  | [] => afterProbes false s
  | name :: rest =>
      (s, Suspend ["systemctl"; "is-active"; name] false
            (fun o s' =>
               match o with
               | Resolved res =>
                   if reportsActive res then afterProbes true s'
                   else probeServices rest s'
               | Rejected _ => probeServices rest s'
               end))
  end.

(** [checkCronAvailable] after [which systemctl] answered. *)
Definition afterWhichSystemctl (o : Outcome) (s : Session) : Session * Job Completion :=
  match o with
  | Rejected _ =>
      let s := showStatus "Cron available" s in
      let s := clearError s in
      let s := log "systemctl not available; skipping cron service checks." s in
      (s, Return Returned)
  | Resolved _ => probeServices ["cron"; "crond"] s
  end.

(** [checkCronAvailable] after [which crontab] answered. *)
Definition afterWhichCrontab (o : Outcome) (s : Session) : Session * Job Completion :=
  match o with
  | Rejected _ =>
      let s := setError ("`crontab` command not found on this host. "
                         ++ "Ensure cron/cronie is installed.") s in
      let s := showStatus "Cron not available" s in
      let s := log "crontab binary missing." s in
      (s, Return (Threw (jsError "crontab-missing")))
  | Resolved _ => (s, Suspend ["which"; "systemctl"] false afterWhichSystemctl)
  end.

(** [checkCronAvailable()]. *)
Definition checkCronAvailable (s : Session) : Session * Job Completion :=
  let s := showStatus "Checking for crontab and cron services..." s in
  let s := clearError s in
  (s, Suspend ["which"; "crontab"] false afterWhichCrontab).

(** A job alone in the session, its commands answered in order by
    [script]: the session, what is left of the job, and the commands
    issued, latest last. *)
Fixpoint runJob {A : Type} (script : list Outcome) (r : Session * Job A)
  (trace : list Command) : Session * Job A * list Command :=
  match snd r with
  | Return _ => (r, trace)
  | Suspend args su k =>
      match script with
      | [] => (r, (trace ++ [(args, su)])%list)
      | o :: rest => runJob rest (k o (fst r)) (trace ++ [(args, su)])%list
      end
  end.

(** [seen.add(x)] on a [Set] kept in insertion order. *)
Definition setAdd (x : string) (seen : list string) : list string :=
  if existsb (String.eqb x) seen then seen else (seen ++ [x])%list.

(** [Array.prototype.sort] without a comparison function, on strings:
    ascending by code units.  Insertion from the right. *)
Fixpoint insertSorted (x : string) (l : list string) : list string :=
  match l with
  | [] => [x]
  | y :: rest => if String.leb x y then x :: l else y :: insertSorted x rest
  end.

Definition sortStrings (l : list string) : list string :=
  fold_right insertSorted [] l.

(** [users.indexOf(x)], [None] for -1. *)
Fixpoint indexOf (x : string) (l : list string) : option nat :=
  match l with
  | [] => None
  | y :: rest =>
      if String.eqb y x then Some 0
      else option_map S (indexOf x rest)
  end.

(** The names [loadUsers] puts into the selector, in order, from the
    current user and the output of its command. *)
Definition userOptions (me : option string) (out : string) : list string :=
  let lines := filter truthy (map trim (splitLines out)) in
  let seen := [] in
  let seen := if truthyOpt me then
                match me with Some u => setAdd u seen | None => seen end
              else seen in
  let seen := setAdd "root" seen in
  let seen := fold_left (fun acc name => setAdd name acc) lines seen in
  let users := sortStrings seen in
  match indexOf "root" users with
  | Some (S i) => "root" :: removeNth (S i) users
  | _ => users
  end.

(* ================================================================== *)
(** ** Further notions used in the statements *)
(* ================================================================== *)

(** Every code unit of the model. *)
Definition allAscii : list ascii := map ascii_of_nat (seq 0 256).

(** A character of the patterns the program searches for: a lower-case
    letter or a blank. *)
Definition isPatternChar (c : ascii) : bool :=
  ((97 <=? N_of_ascii c) && (N_of_ascii c <=? 122) || (N_of_ascii c =? 32))%N.

Fixpoint isPattern (p : string) : bool :=
  match p with
  | "" => true
  | String c r => isPatternChar c && isPattern r
  end.

(** The text [loadCrontab] reads off the answer of its command. *)
Definition loadedText (res : SpawnValue) : string :=
  match res with
  | VString v => v
  | VObject (Some v) => if truthy v then v else ""
  | VObject None => ""
  | VArray chunks => join "" chunks
  end.

(** A line without a line feed that does not end with a carriage return. *)
Definition plainLine (l : string) : bool :=
  noLF l && negb (endsWithChar CR l).

(** Whether the answer of one [systemctl is-active] says the service is
    active. *)
Definition saysActive (o : Outcome) : bool :=
  match o with
  | Resolved res => reportsActive res
  | Rejected _ => false
  end.

(** The raw content and the parsed lines belong together: the lines are
    the parse of the content, or both are empty. *)
Definition documentInStep (s : Session) : Prop :=
  parsedLines s = parseCrontab (rawCrontab s) \/
  (rawCrontab s = "" /\ parsedLines s = []).

(** Every continuation of [t], at every depth, takes a session with [P]
    to a session with [P]. *)
#[warnings="-register-all"]
Inductive Keeps (P : Session -> Prop) : Task -> Prop :=
| keeps_done : Keeps P Done
| keeps_await (args : list string) (su : bool)
              (k : Outcome -> Session -> Session * Task) :
    (forall o s, P s -> P (fst (k o s)) /\ Keeps P (snd (k o s))) ->
    Keeps P (Await args su k).

(** A piece of code keeps [P], now and in all that it leaves behind. *)
Definition KeepsFrom (P : Session -> Prop) (f : Session -> Session * Task) : Prop :=
  forall s, P s -> P (fst (f s)) /\ Keeps P (snd (f s)).

(** The session a page starts with: no document, nothing shown. *)
Definition initialSession (me sel : option string) : Session :=
  mkSession "" [] me sel "" None [].

(** A suspended function keeps [P]. *)
Definition PendingKeeps (P : Session -> Prop) (p : Pending) : Prop :=
  forall o s, P s -> P (fst (resume p o s)) /\ Keeps P (snd (resume p o s)).

(** The session has [P] and all that is in flight keeps it. *)
Definition WorldKeeps (P : Session -> Prop) (w : World) : Prop :=
  P (session w) /\ Forall (PendingKeeps P) (inflight w).

(** The fields of [expr] that are not empty, when it is split on runs of
    white space as it stands: its words. *)
Definition wordsOf (expr : string) : list string :=
  filter truthy (splitWs expr).

(** Ascending by code units. *)
Definition ascending (l : list string) : Prop :=
  StronglySorted (fun a b => String.leb a b = true) l.



(* ================================================================== *)
(** ** Strings: appending, trimming, splitting *)
(* ================================================================== *)

Lemma append_empty_r (s : string) : s ++ "" = s.
Proof. induction s as [|c r IH]; simpl; [reflexivity | now rewrite IH]. Qed.

Lemma append_assoc (a b c : string) : (a ++ b) ++ c = a ++ (b ++ c).
Proof. induction a as [|x r IH]; simpl; [reflexivity | now rewrite IH]. Qed.

Lemma isEmpty_true (s : string) : isEmpty s = true <-> s = "".
Proof. destruct s; simpl; split; intros H; try reflexivity; discriminate. Qed.

Lemma isEmpty_false (s : string) : isEmpty s = false <-> s <> "".
Proof. destruct s; simpl; split; intros H; try reflexivity; try discriminate; congruence. Qed.

Lemma truthy_true (s : string) : truthy s = true <-> s <> "".
Proof. unfold truthy. rewrite negb_true_iff. apply isEmpty_false. Qed.

(** What [trimStart] keeps does not begin with white space. *)
Lemma trimStart_head (s : string) (c : ascii) (r : string) :
  trimStart s = String c r -> isWhiteSpace c = false.
Proof.
  induction s as [|a t IH]; simpl; [discriminate|].
  destruct (isWhiteSpace a) eqn:Ha; [exact IH|].
  intros H. injection H as -> _. exact Ha.
Qed.

Lemma trimStart_fixed (c : ascii) (r : string) :
  isWhiteSpace c = false -> trimStart (String c r) = String c r.
Proof. intros H. simpl. now rewrite H. Qed.

(** [trimEnd] keeps the first character of a string that begins with a
    character other than white space. *)
Lemma trimEnd_cons (c : ascii) (r : string) :
  isWhiteSpace c = false -> trimEnd (String c r) = String c (trimEnd r).
Proof. intros H. simpl. now rewrite H. Qed.

Lemma trim_empty_iff (s : string) : trim s = "" <-> trimStart s = "".
Proof.
  unfold trim. split; intros H.
  - destruct (trimStart s) as [|c r] eqn:E; [reflexivity|].
    rewrite (trimEnd_cons c r (trimStart_head s c r E)) in H. discriminate.
  - now rewrite H.
Qed.

Lemma trim_head (s : string) (c : ascii) (r : string) :
  trim s = String c r -> isWhiteSpace c = false.
Proof.
  unfold trim. destruct (trimStart s) as [|a t] eqn:E; simpl; [discriminate|].
  pose proof (trimStart_head s a t E) as Ha. rewrite Ha. simpl.
  intros H. injection H as <- _. exact Ha.
Qed.

(** What [trimEnd] keeps does not end with white space. *)
Lemma trimEnd_last (s : string) (c : ascii) :
  endsWithChar c (trimEnd s) = true -> isWhiteSpace c = false.
Proof.
  induction s as [|a t IH]; simpl; [discriminate|].
  destruct (isWhiteSpace a && isEmpty (trimEnd t)) eqn:E; simpl; [discriminate|].
  destruct (trimEnd t) as [|b u] eqn:Et.
  - rewrite andb_true_r in E. intros H. apply Ascii.eqb_eq in H. now subst.
  - exact IH.
Qed.

Lemma splitLines_nonempty (s : string) : splitLines s <> [].
Proof.
  induction s as [|c r IH]; simpl; [discriminate|].
  destruct (Ascii.eqb c LF); [discriminate|].
  destruct r as [|c' r'].
  - discriminate.
  - destruct (Ascii.eqb c CR && Ascii.eqb c' LF); [discriminate|].
    destruct (splitLines (String c' r')); [now elim IH | discriminate].
Qed.

Lemma join_cons (sep x : string) (l : list string) :
  l <> [] -> join sep (x :: l) = x ++ sep ++ join sep l.
Proof. destruct l; [congruence | reflexivity]. Qed.

Lemma join_consHead (sep : string) (c : ascii) (l : list string) :
  l <> [] -> join sep (consHead c l) = String c (join sep l).
Proof.
  destruct l as [|x [|y l]]; [congruence | reflexivity | reflexivity].
Qed.

Lemma noCRLF_cons (c c' : ascii) (r : string) :
  noCRLF (String c (String c' r)) =
  negb (Ascii.eqb c CR && Ascii.eqb c' LF) && noCRLF (String c' r).
Proof. reflexivity. Qed.

Lemma noCRLF_tail (c : ascii) (r : string) :
  noCRLF (String c r) = true -> noCRLF r = true.
Proof.
  destruct r as [|c' r']; [reflexivity|].
  rewrite noCRLF_cons. intros H. now apply andb_true_iff in H.
Qed.

(** Joining the lines of a text with line feeds gives the text back. *)
Lemma join_splitLines (s : string) :
  noCRLF s = true -> join nl (splitLines s) = s.
Proof.
  induction s as [|c r IH]; [reflexivity|].
  intros H. cbn [splitLines].
  destruct (Ascii.eqb c LF) eqn:Ec.
  - apply Ascii.eqb_eq in Ec. subst c.
    rewrite join_cons by apply splitLines_nonempty.
    rewrite IH; [reflexivity|]. now apply noCRLF_tail in H.
  - destruct r as [|c' r'].
    + reflexivity.
    + pose proof (noCRLF_tail _ _ H) as H2.
      rewrite noCRLF_cons in H. apply andb_true_iff in H. destruct H as [H1 _].
      apply negb_true_iff in H1. rewrite H1.
      rewrite join_consHead by apply splitLines_nonempty.
      now rewrite IH.
Qed.

Lemma text_classifyLine (idx : nat) (l : string) : text (classifyLine idx l) = l.
Proof.
  unfold classifyLine.
  destruct (isEmpty (trim l)); [reflexivity|].
  destruct (testLeadingHash l); reflexivity.
Qed.


Lemma map_text_classifyFrom (idx : nat) (lines : list string) :
  map text (classifyFrom idx lines) = lines.
Proof.
  revert idx. induction lines as [|l rest IH]; intros idx; simpl; [reflexivity|].
  now rewrite text_classifyLine, IH.
Qed.

Lemma length_classifyFrom (idx : nat) (lines : list string) :
  List.length (classifyFrom idx lines) = List.length lines.
Proof.
  revert idx. induction lines as [|l rest IH]; intros idx; simpl; [reflexivity|].
  now rewrite IH.
Qed.

Lemma classifyFrom_app (idx : nat) (a b : list string) :
  classifyFrom idx (a ++ b) =
  (classifyFrom idx a ++ classifyFrom (idx + List.length a) b)%list.
Proof.
  revert idx. induction a as [|l rest IH]; intros idx; simpl.
  - now rewrite Nat.add_0_r.
  - rewrite IH. now rewrite <- Nat.add_succ_comm.
Qed.

Lemma isWhiteSpace_hash : isWhiteSpace hash = false.
Proof. reflexivity. Qed.












(* ================================================================== *)
(** ** The schedule validator *)
(* ================================================================== *)

Lemma endsNonWs_trimEnd (s : string) :
  trimEnd s <> "" -> endsNonWs (trimEnd s) = true.
Proof.
  induction s as [|c r IH]; simpl; [congruence|].
  destruct (trimEnd r) as [|a t] eqn:E.
  - rewrite andb_true_r. destruct (isWhiteSpace c) eqn:Hc; [congruence|].
    intros _. simpl. now rewrite Hc.
  - rewrite andb_false_r. intros _. apply IH. discriminate.
Qed.

Lemma endsNonWs_cons (c a : ascii) (r : string) :
  endsNonWs (String c (String a r)) = endsNonWs (String a r).
Proof. reflexivity. Qed.

Lemma nonEmptyFields_consHead (c : ascii) (l : list string) :
  nonEmptyFields l -> nonEmptyFields (consHead c l).
Proof.
  intros H. destruct H as [|f fs Hf Hfs]; simpl; constructor;
    try discriminate; auto.
Qed.

(** In a string that ends with a character other than white space, no run
    of white space leaves an empty field behind it. *)
Lemma splitWsFrom_nonEmpty (s : string) :
  endsNonWs s = true ->
  nonEmptyFields (splitWsFrom true s) /\
  forall c, nonEmptyFields (consHead c (splitWsFrom false s)).
Proof.
  induction s as [|a r IH]; [discriminate|].
  intros H. destruct r as [|b t].
  - simpl in H. apply negb_true_iff in H. cbn [splitWsFrom]. rewrite H. simpl.
    split; [|intros c]; repeat constructor; discriminate.
  - rewrite endsNonWs_cons in H. destruct (IH H) as [IH1 IH2].
    cbn [splitWsFrom]. fold (splitWsFrom true (String b t)).
    fold (splitWsFrom false (String b t)).
    destruct (isWhiteSpace a).
    + split; [exact IH1|]. intros c. simpl. constructor; [discriminate | exact IH1].
    + split; [apply IH2|]. intros c. apply nonEmptyFields_consHead, IH2.
Qed.

(** After [trim], no field is empty unless nothing is left at all. *)
Lemma splitWs_trim_nonEmpty (expr : string) :
  trim expr <> "" -> nonEmptyFields (splitWs (trim expr)).
Proof.
  intros H. pose proof (endsNonWs_trimEnd (trimStart expr) H) as He.
  fold (trim expr) in He. destruct (trim expr) as [|c r] eqn:E; [congruence|].
  pose proof (trim_head expr c r E) as Hc.
  unfold splitWs. cbn [splitWsFrom]. rewrite Hc.
  destruct r as [|a t].
  - repeat constructor. discriminate.
  - rewrite endsNonWs_cons in He. apply (splitWsFrom_nonEmpty _ He).
Qed.

Lemma forallb_truthy (l : list string) :
  forallb truthy l = true <-> nonEmptyFields l.
Proof.
  unfold nonEmptyFields. rewrite forallb_forall, Forall_forall.
  split; intros H f Hf; apply truthy_true, H, Hf.
Qed.

(** C6 (as amended).  [validateCron(expr)] is true exactly when [expr]
    with its leading and trailing white space removed splits on runs of
    white space into 5 to 7 fields, all of them non-empty; after that
    trimming no field is ever empty once there are 5 of them, so the count
    alone decides.  The four boundary cases of the specification hold. *)
Theorem validateCron_trimmed_fields (expr : string) :
  (validateCron expr = true <->
     5 <= List.length (splitWs (trim expr)) <= 7 /\
     nonEmptyFields (splitWs (trim expr))) /\
  (validateCron expr = true <-> 5 <= List.length (splitWs (trim expr)) <= 7) /\
  validateCron "* * * * *" = true /\
  validateCron "* * * *" = false /\
  validateCron "a b c d e f g h" = false /\
  validateCron "" = false.
Proof.
  assert (Hcount : forall n, ((n <? 5) || (7 <? n))%nat = false <-> 5 <= n <= 7).
  { intros n. rewrite orb_false_iff, !Nat.ltb_ge. lia. }
  assert (Hall : 5 <= List.length (splitWs (trim expr)) <= 7 ->
                 nonEmptyFields (splitWs (trim expr))).
  { intros Hn. apply splitWs_trim_nonEmpty. intros E. rewrite E in Hn.
    simpl in Hn. lia. }
  assert (Hmain : validateCron expr = true <->
     5 <= List.length (splitWs (trim expr)) <= 7 /\
     nonEmptyFields (splitWs (trim expr))).
  { unfold validateCron. cbv zeta.
    destruct ((List.length (splitWs (trim expr)) <? 5)
              || (7 <? List.length (splitWs (trim expr))))%nat eqn:E.
    - split; [discriminate|]. intros [Hn _]. apply Hcount in Hn. congruence.
    - apply Hcount in E. rewrite forallb_truthy. tauto. }
  repeat split; try reflexivity; try (apply Hmain; fail); try tauto.
Qed.

(** C6 (as stated, refuted).  Splitting [expr] itself, untrimmed: a leading
    blank gives an empty first field, yet the schedule is accepted. *)
Lemma validateCron_untrimmed_counterexample :
  ~ (forall expr : string,
       validateCron expr = true <->
         5 <= List.length (splitWs expr) <= 7 /\ nonEmptyFields (splitWs expr)).
Proof.
  intros H. destruct (H " * * * * *") as [H1 _].
  destruct (H1 eq_refl) as [_ Hf]. inversion Hf as [|f fs Hne _]. now apply Hne.
Qed.

(* ================================================================== *)
(** ** Elevation *)
(* ================================================================== *)

Lemma orNull_some (x : option string) (v : string) :
  orNull x = Some v -> x = Some v /\ v <> "".
Proof.
  unfold orNull. destruct x as [u|]; simpl; [|discriminate].
  destruct (truthy u) eqn:E; [|discriminate].
  intros H. injection H as ->. split; [reflexivity | now apply truthy_true].
Qed.

(** C8.  With the selected user read the way the program reads it
    ([getUserForCrontabFlag]: the selector's value, the current user when
    nothing is selected, null when there is neither), [isDifferentUser] is
    false exactly when the selected user is null or equals the current
    user, and true otherwise.  In terms of the selector itself: it is true
    exactly when a non-empty value is selected that is not the current
    user.  Its value is the [superuser] requirement of the commands that
    [loadCrontab] and [installCrontab] issue. *)
Theorem isDifferentUser_iff (s : Session) :
  (isDifferentUser s = false <->
     getUserForCrontabFlag s = None \/ getUserForCrontabFlag s = currentUser s) /\
  (isDifferentUser s = true <->
     getUserForCrontabFlag s <> None /\ getUserForCrontabFlag s <> currentUser s) /\
  (isDifferentUser s = true <->
     exists v, userSelect s = Some v /\ v <> "" /\ currentUser s <> Some v) /\
  (exists args k, snd (loadCrontab s) = Await args (isDifferentUser s) k) /\
  (forall newContent,
     exists k, snd (installCrontab newContent s) = Await mktempCmd (isDifferentUser s) k).
Proof.
  assert (Hfalse : isDifferentUser s = false <->
     getUserForCrontabFlag s = None \/ getUserForCrontabFlag s = currentUser s).
  { unfold isDifferentUser.
    destruct (getUserForCrontabFlag s) as [t|] eqn:Et.
    - apply orNull_some in Et. destruct Et as [_ Hne].
      destruct (currentUser s) as [me|].
      + destruct (truthy me) eqn:Hme.
        * rewrite negb_false_iff, String.eqb_eq. split.
          -- intros ->. now right.
          -- intros [H|H]; [discriminate | congruence].
        * unfold truthy in Hme. apply negb_false_iff in Hme.
          apply isEmpty_true in Hme. subst me. split; [discriminate|].
          intros [H|H]; [discriminate | congruence].
      + split; [discriminate|]. intros [H|H]; discriminate.
    - split; auto. }
  assert (Htrue : isDifferentUser s = true <->
     getUserForCrontabFlag s <> None /\ getUserForCrontabFlag s <> currentUser s).
  { rewrite <- not_false_iff_true, Hfalse. split.
    - intros H. split; intros E; apply H; auto.
    - intros [H1 H2] [E|E]; auto. }
  split; [exact Hfalse|]. split; [exact Htrue|].
  split;
    [|split; [do 2 eexists; reflexivity | intros newContent; eexists; reflexivity]].
  rewrite Htrue. unfold getUserForCrontabFlag, getSelectedUserValue.
  destruct (userSelect s) as [v|] eqn:Ev.
  - destruct (truthy v) eqn:Hv.
    + assert (Ho : orNull (Some v) = Some v) by (unfold orNull; simpl; now rewrite Hv).
      rewrite Ho. apply truthy_true in Hv. split.
      * intros [_ H]. exists v. repeat split; auto.
      * intros (u & Hu & Hne & Hcur). injection Hu as <-.
        split; [discriminate | congruence].
    + split.
      * intros [H1 H2]. exfalso.
        destruct (orNull (orNull (currentUser s))) as [u|] eqn:E; [|congruence].
        apply orNull_some in E. destruct E as [E _].
        apply orNull_some in E. destruct E as [E _]. congruence.
      * intros (u & Hu & Hne & _). injection Hu as <-.
        apply truthy_true in Hne. congruence.
  - split.
    + intros [H1 H2]. exfalso.
      destruct (orNull (orNull (currentUser s))) as [u|] eqn:E; [|congruence].
      apply orNull_some in E. destruct E as [E _].
      apply orNull_some in E. destruct E as [E _]. congruence.
    + intros (u & Hu & _). discriminate.
Qed.

(* ================================================================== *)
(** ** Failures of the read path *)
(* ================================================================== *)

Lemma strictEq_true (x : option string) (v : string) :
  strictEq x v = true <-> x = Some v.
Proof.
  destruct x as [u|]; simpl; [|split; discriminate].
  rewrite String.eqb_eq. split; congruence.
Qed.

Lemma isAccessDenied_iff (err : Failure) :
  isAccessDenied err = true <->
    problem err = Some "access-denied" \/
    testAnyCI accessDeniedPatterns (orElse (message err) (asString err)) = true.
Proof.
  unfold isAccessDenied.
  destruct (strictEq (problem err) "access-denied") eqn:E.
  - apply strictEq_true in E. tauto.
  - split; [tauto|]. intros [H|H]; [|exact H].
    apply strictEq_true in H. congruence.
Qed.

(** C10.  On the read path an access-denied failure (the problem code
    [access-denied], or a message matching one of the permission patterns
    whatever the case of its letters) is reported as a permission denial and
    leaves the raw content and the parsed lines as they were, whatever else
    the failure says, the no-crontab phrase included. *)
Theorem access_denied_precedes_no_crontab (s0 s : Session) (err : Failure) :
  problem err = Some "access-denied" \/
  testAnyCI accessDeniedPatterns (orElse (message err) (asString err)) = true ->
  loadFailureKind err = AccessDenied /\
  rawCrontab (fst (loadFails s0 err s)) = rawCrontab s /\
  parsedLines (fst (loadFails s0 err s)) = parsedLines s /\
  status (fst (loadFails s0 err s)) = "Permission denied" /\
  error (fst (loadFails s0 err s)) =
    Some ("Admin access required to read crontab for " ++ userDisplayName s ++ ".") /\
  snd (loadFails s0 err s) = Done.
Proof.
  intros H. apply isAccessDenied_iff in H.
  unfold loadFails, loadCrontab, resumeWith, loadRejected, loadFailureKind.
  cbn [snd fst]. rewrite H. repeat split.
Qed.

Lemma access_denied_precedes_no_crontab_witness :
  includes "no crontab for" (toLowerCase (errorText deniedAndNoCrontab)) = true /\
  rawCrontab (fst (loadFails loadedSession deniedAndNoCrontab loadedSession))
    = rawCrontab loadedSession /\
  status (fst (loadFails loadedSession deniedAndNoCrontab loadedSession))
    = "Permission denied".
Proof.
  split; [reflexivity|].
  pose proof (access_denied_precedes_no_crontab loadedSession loadedSession
                deniedAndNoCrontab (or_introl eq_refl)) as H.
  split; [apply H | apply H].
Defined.

(** C7 (as amended).  A failure of the read path that is not access-denied
    and whose captured text holds the phrase "no crontab for", in any case
    of its letters, is the no-crontab outcome and not the generic one: the
    raw content becomes empty, the parsed lines become the empty list, and
    the error container is left as it was (no error is set, none is
    cleared). *)
Theorem no_crontab_is_empty_document (s0 s : Session) (err : Failure) :
  isAccessDenied err = false ->
  includes "no crontab for" (toLowerCase (errorText err)) = true ->
  loadFailureKind err = NoExistingCrontab /\
  rawCrontab (fst (loadFails s0 err s)) = "" /\
  parsedLines (fst (loadFails s0 err s)) = [] /\
  error (fst (loadFails s0 err s)) = error s /\
  status (fst (loadFails s0 err s)) = "No crontab for " ++ userDisplayName s /\
  snd (loadFails s0 err s) = Done.
Proof.
  intros Ha Hn.
  unfold loadFails, loadCrontab, resumeWith, loadRejected, loadFailureKind.
  cbn [snd fst]. rewrite Ha, Hn. repeat split.
Qed.

Lemma no_crontab_is_empty_document_witness :
  loadFailureKind noCrontabForBob = NoExistingCrontab /\
  rawCrontab (fst (loadFails loadedSession noCrontabForBob loadedSession)) = "" /\
  parsedLines (fst (loadFails loadedSession noCrontabForBob loadedSession)) = [].
Proof.
  pose proof (no_crontab_is_empty_document loadedSession loadedSession
                noCrontabForBob eq_refl eq_refl) as H.
  repeat split; apply H.
Defined.

(** Whatever else a failure says, the phrase keeps it out of the generic
    branch. *)
Lemma no_crontab_phrase_never_generic (err : Failure) :
  includes "no crontab for" (toLowerCase (errorText err)) = true ->
  loadFailureKind err <> Generic.
Proof.
  intros H. unfold loadFailureKind. rewrite H.
  destruct (isAccessDenied err); discriminate.
Qed.

(** C7 (as stated, refuted).  The phrase alone does not decide: a failure
    that is also access-denied leaves the document as it was. *)
Lemma no_crontab_phrase_counterexample :
  ~ (forall (s0 s : Session) (err : Failure),
       includes "no crontab for" (toLowerCase (errorText err)) = true ->
       loadFailureKind err = NoExistingCrontab /\
       rawCrontab (fst (loadFails s0 err s)) = "" /\
       parsedLines (fst (loadFails s0 err s)) = []).
Proof.
  intros H.
  destruct (H loadedSession loadedSession deniedAndNoCrontab eq_refl) as [Hk _].
  discriminate Hk.
Qed.

(* ================================================================== *)
(** ** Deleting a line *)
(* ================================================================== *)

Lemma dropIndexFrom_out (from : nat) (parsedIndex : Z) (lines : list Line) :
  (parsedIndex < Z.of_nat from \/ Z.of_nat (from + List.length lines) <= parsedIndex)%Z ->
  dropIndexFrom from parsedIndex lines = lines.
Proof.
  revert from. induction lines as [|l rest IH]; intros from H; simpl; [reflexivity|].
  simpl in H. destruct (Z.eqb_spec (Z.of_nat from) parsedIndex) as [E|E]; [lia|].
  rewrite IH; [reflexivity | lia].
Qed.

Lemma dropIndexFrom_in (from i : nat) (lines : list Line) :
  i < List.length lines ->
  dropIndexFrom from (Z.of_nat (from + i)) lines
  = (firstn i lines ++ skipn (S i) lines)%list.
Proof.
  revert from i. induction lines as [|l rest IH]; intros from i H; simpl in H; [lia|].
  cbn [dropIndexFrom].
  destruct (Z.eqb_spec (Z.of_nat from) (Z.of_nat (from + i))) as [E|E].
  - assert (i = 0) by lia. subst i. simpl.
    apply dropIndexFrom_out. lia.
  - destruct i as [|j]; [rewrite Nat.add_0_r in E; congruence|].
    replace (from + S j) with (S from + j) by lia.
    rewrite IH by lia. reflexivity.
Qed.

(** C4 (as amended).  [deleteEntryAt] never fails: it always starts the
    install pipeline with the serialized remaining lines.  For an index
    within the parsed lines these are all lines but the one at the index,
    in their order, one fewer than before; for an index outside (negative,
    or at or past the end) no line is removed and the document is
    installed again as it is. *)
Theorem deleteEntryAt_precise (s : Session) (parsedIndex : Z) :
  ((0 <= parsedIndex < Z.of_nat (List.length (parsedLines s)))%Z ->
     newLinesOf (parsedLines s) parsedIndex
       = map text (firstn (Z.to_nat parsedIndex) (parsedLines s)
                   ++ skipn (S (Z.to_nat parsedIndex)) (parsedLines s))%list /\
     List.length (newLinesOf (parsedLines s) parsedIndex)
       = List.length (parsedLines s) - 1) /\
  ((parsedIndex < 0 \/ Z.of_nat (List.length (parsedLines s)) <= parsedIndex)%Z ->
     newLinesOf (parsedLines s) parsedIndex = map text (parsedLines s)) /\
  deleteEntryAt parsedIndex s
    = installCrontab (serialize (newLinesOf (parsedLines s) parsedIndex)) s /\
  snd (deleteEntryAt parsedIndex s) <> Done.
Proof.
  repeat split.
  - unfold newLinesOf.
    replace parsedIndex with (Z.of_nat (0 + Z.to_nat parsedIndex)) at 1 by lia.
    rewrite dropIndexFrom_in by lia. reflexivity.
  - unfold newLinesOf.
    replace parsedIndex with (Z.of_nat (0 + Z.to_nat parsedIndex)) at 1 by lia.
    rewrite dropIndexFrom_in by lia.
    rewrite length_map, length_app, length_firstn, length_skipn. lia.
  - intros H. unfold newLinesOf. rewrite dropIndexFrom_out; [reflexivity|].
    simpl. lia.
  - discriminate.
Qed.

Lemma deleteEntryAt_precise_witness :
  newLinesOf (parseCrontab ("# jobs" ++ nl ++ "0 2 * * * a" ++ nl ++ "5 4 * * * b")) 1
    = ["# jobs"; "5 4 * * * b"] /\
  newLinesOf (parseCrontab ("# jobs" ++ nl ++ "0 2 * * * a" ++ nl ++ "5 4 * * * b")) 7
    = ["# jobs"; "0 2 * * * a"; "5 4 * * * b"].
Proof.
  pose (s := mkSession ("# jobs" ++ nl ++ "0 2 * * * a" ++ nl ++ "5 4 * * * b")
               (parseCrontab ("# jobs" ++ nl ++ "0 2 * * * a" ++ nl ++ "5 4 * * * b"))
               (Some "alice") None "" None []).
  split.
  - apply (proj1 (deleteEntryAt_precise s 1)). simpl. lia.
  - apply (proj1 (proj2 (deleteEntryAt_precise s 7))). simpl. lia.
Defined.

(** C4 (as stated, refuted).  An index out of bounds is not turned down
    before the host is reached: the pipeline starts. *)
Lemma deleteEntryAt_out_of_bounds_counterexample :
  ~ (forall (s : Session) (parsedIndex : Z),
       (parsedIndex < 0 \/ Z.of_nat (List.length (parsedLines s)) <= parsedIndex)%Z ->
       snd (deleteEntryAt parsedIndex s) = Done).
Proof.
  intros H. specialize (H loadedSession 5%Z). simpl in H.
  assert (Hb : (5 < 0 \/ 2 <= 5)%Z) by lia.
  specialize (H Hb). discriminate H.
Qed.

(* ================================================================== *)
(** ** Appending an entry *)
(* ================================================================== *)

Lemma splitLines_noLF (s : string) : noLF s = true -> splitLines s = [s].
Proof.
  induction s as [|c r IH]; [reflexivity|].
  cbn [noLF]. intros H. apply andb_true_iff in H. destruct H as [Hc Hr].
  apply negb_true_iff in Hc. cbn [splitLines]. rewrite Hc.
  destruct r as [|c' r']; [reflexivity|].
  rewrite (IH Hr). cbn [noLF] in Hr. apply andb_true_iff in Hr.
  destruct Hr as [Hc' _]. apply negb_true_iff in Hc'. rewrite Hc'.
  now rewrite andb_false_r.
Qed.

Lemma consHead_app (c : ascii) (l m : list string) :
  l <> [] -> consHead c (l ++ m) = (consHead c l ++ m)%list.
Proof. destruct l; [congruence | reflexivity]. Qed.

Lemma splitLines_LF (r : string) : splitLines (String LF r) = "" :: splitLines r.
Proof. reflexivity. Qed.

Lemma splitLines_CRLF (r : string) :
  splitLines (String CR (String LF r)) = "" :: splitLines r.
Proof. reflexivity. Qed.

Lemma splitLines_other (c : ascii) (r : string) :
  noLineEndAt c r = true -> splitLines (String c r) = consHead c (splitLines r).
Proof.
  unfold noLineEndAt. intros H. apply andb_true_iff in H. destruct H as [H1 H2].
  apply negb_true_iff in H1. cbn [splitLines]. rewrite H1.
  destruct r as [|c' r']; [reflexivity|].
  apply negb_true_iff in H2. now rewrite H2.
Qed.

(** A line feed put after a text that does not end with a carriage return
    ends the last line of the text and nothing more. *)
Lemma splitLines_app (a b : string) :
  endsWithChar CR a = false ->
  splitLines (a ++ nl ++ b) = (splitLines a ++ splitLines b)%list.
Proof.
  induction a as [|c r IH]; intros H; [reflexivity|].
  assert (Hr : endsWithChar CR r = false).
  { destruct r; [reflexivity | exact H]. }
  specialize (IH Hr).
  change (String c r ++ nl ++ b) with (String c (r ++ nl ++ b)).
  destruct (Ascii.eqb_spec c LF) as [->|Hc].
  - rewrite !splitLines_LF, IH. reflexivity.
  - apply Ascii.eqb_neq in Hc. destruct r as [|c' r'].
    + simpl in H. change ("" ++ nl ++ b) with (String LF b).
      rewrite (splitLines_other c (String LF b)), (splitLines_other c "").
      * rewrite splitLines_LF. reflexivity.
      * unfold noLineEndAt. now rewrite Hc.
      * unfold noLineEndAt. now rewrite Hc, H.
    + change (String c' r' ++ nl ++ b) with (String c' (r' ++ nl ++ b)) in *.
      destruct (Ascii.eqb c CR && Ascii.eqb c' LF) eqn:E.
      * apply andb_true_iff in E. destruct E as [E1 E2].
        apply Ascii.eqb_eq in E1, E2. subst c c'.
        rewrite !splitLines_CRLF. rewrite !splitLines_LF in IH. exact IH.
      * rewrite (splitLines_other c (String c' (r' ++ nl ++ b))),
                (splitLines_other c (String c' r')).
        -- rewrite IH. apply consHead_app, splitLines_nonempty.
        -- unfold noLineEndAt. now rewrite Hc, E.
        -- unfold noLineEndAt. now rewrite Hc, E.
Qed.

Lemma endsWithChar_app (c : ascii) (a b : string) :
  b <> "" -> endsWithChar c (a ++ b) = endsWithChar c b.
Proof.
  intros Hb. induction a as [|x r IH]; [reflexivity|].
  change (String x r ++ b) with (String x (r ++ b)).
  destruct (r ++ b) as [|y t] eqn:E.
  - destruct r; simpl in E; [congruence | discriminate].
  - exact IH.
Qed.

Lemma endsWithChar_CR_trimEnd (s : string) : endsWithChar CR (trimEnd s) = false.
Proof.
  destruct (endsWithChar CR (trimEnd s)) eqn:E; [|reflexivity].
  apply trimEnd_last in E. discriminate E.
Qed.

Lemma newLine_not_CR_ended (expr cmd : string) :
  endsWithChar CR (newLine expr cmd) = false.
Proof.
  unfold newLine. rewrite endsWithChar_app by (simpl; discriminate).
  unfold trim at 1. destruct (trimEnd (trimStart cmd)) as [|c r] eqn:E.
  - reflexivity.
  - change (" " ++ String c r) with (String " "%char (String c r)).
    change (endsWithChar CR (String " "%char (String c r)))
      with (endsWithChar CR (String c r)).
    rewrite <- E. apply endsWithChar_CR_trimEnd.
Qed.

Lemma splitLines_line_nl (l : string) :
  noLF l = true -> endsWithChar CR l = false -> splitLines (l ++ nl) = [l; ""].
Proof.
  intros Hl Hc. rewrite <- (append_empty_r nl).
  rewrite splitLines_app by exact Hc. now rewrite splitLines_noLF.
Qed.

Lemma testLeadingHash_trimStart (s : string) :
  testLeadingHash (trimStart s) = testLeadingHash s.
Proof.
  induction s as [|c r IH]; [reflexivity|].
  destruct (isWhiteSpace c) eqn:Hc.
  - assert (Hh : Ascii.eqb c hash = false).
    { destruct (Ascii.eqb_spec c hash) as [->|]; [|reflexivity].
      rewrite isWhiteSpace_hash in Hc. discriminate Hc. }
    cbn [trimStart testLeadingHash]. now rewrite Hc, Hh.
  - now rewrite trimStart_fixed.
Qed.

Lemma testLeadingHash_head (c : ascii) (r : string) :
  isWhiteSpace c = false -> testLeadingHash (String c r) = Ascii.eqb c hash.
Proof. intros H. cbn. rewrite H. now destruct (Ascii.eqb c hash). Qed.

(** The new line is a comment when the first character of the schedule
    that is not white space is the hash sign, and an entry otherwise. *)
Lemma classifyLine_newLine (idx : nat) (expr cmd : string) :
  trim expr <> "" ->
  classifyLine idx (newLine expr cmd)
  = mkLine (if testLeadingHash expr then comment else entry) (newLine expr cmd) idx.
Proof.
  intros Hne. unfold newLine, trim in *.
  rewrite <- (testLeadingHash_trimStart expr).
  destruct (trimStart expr) as [|c r0] eqn:Es; [now elim Hne|].
  pose proof (trimStart_head expr c r0 Es) as Hc.
  rewrite (trimEnd_cons c r0 Hc).
  change (String c (trimEnd r0) ++ " " ++ trimEnd (trimStart cmd))
    with (String c (trimEnd r0 ++ " " ++ trimEnd (trimStart cmd))).
  unfold classifyLine.
  assert (Hb : isEmpty (trim (String c (trimEnd r0 ++ " " ++ trimEnd (trimStart cmd))))
               = false).
  { apply isEmpty_false. intros H. apply trim_empty_iff in H.
    rewrite (trimStart_fixed c _ Hc) in H. discriminate H. }
  rewrite Hb, !(testLeadingHash_head c _ Hc).
  destruct (Ascii.eqb c hash); reflexivity.
Qed.

Lemma validateCron_trim_nonempty (expr : string) :
  validateCron expr = true -> trim expr <> "".
Proof.
  unfold validateCron. intros H E. rewrite E in H. discriminate H.
Qed.

Lemma blank_raw_test (raw : string) :
  truthy raw && negb (isEmpty (trim raw)) = negb (isEmpty (trim raw)).
Proof. destruct raw; reflexivity. Qed.

(** C3 (as amended).  An invalid schedule is turned down at once: an error
    is shown, no command is issued and the document is untouched.  For a
    valid one [addEntry] leaves the document in the session untouched and
    calls [installCrontab] with this content: the raw content without its
    trailing white space (nothing when the content is blank), a line feed,
    the line [expr.trim() + " " + cmd.trim()] and a line feed.  When that
    line holds no line feed, the content parses into the kept lines
    unchanged, classified as they are on their own, then the new line, then
    the empty line after the last line feed; the new line is a Comment when
    the first character of the schedule that is not white space is the hash
    sign, and an Entry otherwise.  A content that ends with one line feed
    after a character that is not white space keeps all its lines. *)
Theorem addEntry_appends (s : Session) (expr cmd : string) :
  (validateCron expr = false ->
     snd (addEntry expr cmd s) = Done /\
     rawCrontab (fst (addEntry expr cmd s)) = rawCrontab s /\
     parsedLines (fst (addEntry expr cmd s)) = parsedLines s /\
     error (fst (addEntry expr cmd s)) <> None) /\
  (validateCron expr = true ->
     addEntry expr cmd s
       = installCrontab (addContent (rawCrontab s) expr cmd) (clearError s) /\
     rawCrontab (fst (addEntry expr cmd s)) = rawCrontab s /\
     parsedLines (fst (addEntry expr cmd s)) = parsedLines s /\
     addContent (rawCrontab s) expr cmd
       = (if isEmpty (trim (rawCrontab s)) then "" else trimEnd (rawCrontab s) ++ nl)
         ++ newLine expr cmd ++ nl /\
     (noLF (newLine expr cmd) = true ->
        parseCrontab (addContent (rawCrontab s) expr cmd)
          = (classifyFrom 0 (keptLines (rawCrontab s))
             ++ [classifyLine (List.length (keptLines (rawCrontab s))) (newLine expr cmd);
                 mkLine blank "" (S (List.length (keptLines (rawCrontab s))))])%list /\
        nth_error (parseCrontab (addContent (rawCrontab s) expr cmd))
                  (List.length (keptLines (rawCrontab s)))
        = Some (mkLine (if testLeadingHash expr then comment else entry)
                       (newLine expr cmd)
                       (List.length (keptLines (rawCrontab s))))) /\
     (isEmpty (trim (rawCrontab s)) = false ->
      rawCrontab s = trimEnd (rawCrontab s) ++ nl ->
        splitLines (rawCrontab s) = (keptLines (rawCrontab s) ++ [""])%list)).
Proof.
  split.
  - intros Hv. unfold addEntry. rewrite Hv. simpl. repeat split. discriminate.
  - intros Hv. unfold addEntry. rewrite Hv. cbn [negb].
    assert (Hcontent : addContent (rawCrontab s) expr cmd
       = (if isEmpty (trim (rawCrontab s)) then "" else trimEnd (rawCrontab s) ++ nl)
         ++ newLine expr cmd ++ nl).
    { unfold addContent, newLine. cbv zeta. rewrite blank_raw_test.
      destruct (isEmpty (trim (rawCrontab s))); simpl.
      - now rewrite !append_assoc.
      - now rewrite !append_assoc. }
    assert (Hlines : noLF (newLine expr cmd) = true ->
       splitLines (addContent (rawCrontab s) expr cmd)
       = (keptLines (rawCrontab s) ++ [newLine expr cmd; ""])%list).
    { intros Hl. rewrite Hcontent. unfold keptLines.
      destruct (isEmpty (trim (rawCrontab s))).
      - simpl. apply splitLines_line_nl; [exact Hl | apply newLine_not_CR_ended].
      - rewrite append_assoc.
        rewrite splitLines_app by apply endsWithChar_CR_trimEnd.
        rewrite splitLines_line_nl;
          [reflexivity | exact Hl | apply newLine_not_CR_ended]. }
    repeat split.
    + exact Hcontent.
    + unfold parseCrontab. rewrite (Hlines H), classifyFrom_app.
      rewrite Nat.add_0_l. reflexivity.
    + unfold parseCrontab. rewrite (Hlines H).
      rewrite classifyFrom_app. rewrite nth_error_app2
        by (rewrite length_classifyFrom; lia).
      rewrite length_classifyFrom, Nat.sub_diag. cbn [classifyFrom nth_error].
      rewrite classifyLine_newLine;
        [reflexivity | now apply validateCron_trim_nonempty].
    + intros Hb Hr. unfold keptLines. rewrite Hb.
      rewrite Hr at 1. rewrite <- (append_empty_r nl).
      rewrite splitLines_app by apply endsWithChar_CR_trimEnd. reflexivity.
Qed.

Lemma addEntry_appends_witness :
  parseCrontab (addContent (rawCrontab loadedSession) "0 3 * * * " " /bin/true")
  = [mkLine entry "0 2 * * * /usr/local/bin/backup.sh" 0;
     mkLine entry "0 3 * * * /bin/true" 1;
     mkLine blank "" 2] /\
  nth_error (parseCrontab (addContent (rawCrontab loadedSession) " # a b c d" "x")) 1
  = Some (mkLine comment "# a b c d x" 1) /\
  snd (addEntry "0 3 * *" "/bin/true" loadedSession) = Done.
Proof.
  split; [|split].
  - apply (proj1 (proj1 (proj2 (proj2 (proj2 (proj2
       (proj2 (addEntry_appends loadedSession "0 3 * * * " " /bin/true") eq_refl)))))
       eq_refl)).
  - apply (proj2 (proj1 (proj2 (proj2 (proj2 (proj2
       (proj2 (addEntry_appends loadedSession " # a b c d" "x") eq_refl)))))
       eq_refl)).
  - apply (proj1 (addEntry_appends loadedSession "0 3 * *" "/bin/true")).
    reflexivity.
Defined.

(** C3 (as stated, refuted).  Blank lines at the end of the document are
    not kept: the lines before the new one are not the lines of the input. *)
Lemma addEntry_prefix_counterexample :
  ~ (forall raw expr cmd : string,
       validateCron expr = true ->
       firstn (List.length (parseCrontab raw))
              (map text (parseCrontab (addContent raw expr cmd)))
       = map text (parseCrontab raw)).
Proof.
  intros H.
  specialize (H ("# jobs" ++ nl ++ nl ++ nl) "0 3 * * *" "/bin/true" eq_refl).
  vm_compute in H. discriminate H.
Qed.

(* ================================================================== *)
(** ** The install pipeline *)
(* ================================================================== *)

Lemma includes_unfold (p s : string) :
  includes p s = startsWith p s ||
                 match s with
                 | "" => false
                 | String _ r => includes p r
                 end.
Proof. destruct s; reflexivity. Qed.

Lemma startsWith_app (p b : string) : startsWith p (p ++ b) = true.
Proof.
  induction p as [|c r IH]; simpl; [reflexivity|].
  now rewrite Ascii.eqb_refl, IH.
Qed.

Lemma includes_app (p a b : string) : includes p (a ++ p ++ b) = true.
Proof.
  induction a as [|c r IH].
  - rewrite includes_unfold. simpl. now rewrite startsWith_app.
  - change (String c r ++ p ++ b) with (String c (r ++ p ++ b)).
    rewrite includes_unfold. cbv iota. rewrite IH. apply orb_true_r.
Qed.

(** C1 (the program against the claim).  The command of the write step is
    [/bin/sh -c script], and the script holds the document content itself,
    between the two lines of a here-document: the content is text of the
    shell command, not data passed beside it. *)
Theorem write_step_embeds_content (s : Session) (newContent mkOut : string) :
  truthy (trim mkOut) = true ->
  exists script : string,
    map fst (issued (installRun newContent s [Resolved (VString mkOut)]))
      = [mktempCmd; ["/bin/sh"; "-c"; script]] /\
    script = "cat > " ++ trim mkOut ++ " <<'EOF'" ++ nl ++ newContent ++ nl ++ "EOF" ++ nl /\
    includes newContent script = true.
Proof.
  intros H. eexists. split; [|split; [reflexivity|]].
  - unfold installRun, call, idle, installCrontab. run_pipeline. rewrite H.
    run_pipeline. reflexivity.
  - pose proof (includes_app newContent
                  ("cat > " ++ trim mkOut ++ " <<'EOF'" ++ nl) (nl ++ "EOF" ++ nl)) as Hi.
    rewrite !append_assoc in Hi. exact Hi.
Qed.

Lemma write_step_embeds_content_witness :
  exists script : string,
    map fst (issued (installRun contentWithDelimiter loadedSession
                       [Resolved (VString ("/tmp/cockpit-cron-a1B2c3" ++ nl))]))
      = [mktempCmd; ["/bin/sh"; "-c"; script]] /\
    script = "cat > /tmp/cockpit-cron-a1B2c3 <<'EOF'" ++ nl
             ++ "EOF" ++ nl ++ "touch /tmp/owned" ++ nl ++ nl ++ "EOF" ++ nl /\
    includes contentWithDelimiter script = true.
Proof.
  exact (write_step_embeds_content loadedSession contentWithDelimiter
           ("/tmp/cockpit-cron-a1B2c3" ++ nl) eq_refl).
Defined.

(** C2 (the program against the claim).  Once [mktemp] has given a path,
    a run whose write step fails, or whose install step fails, ends with
    the status [Install failed] and has issued no [rm -f] of that path;
    only the run in which both steps succeed issues it. *)
Theorem failed_run_issues_no_removal
  (s : Session) (newContent mkOut : string) (ok ok' : SpawnValue) (err : Failure) :
  truthy (trim mkOut) = true ->
  (inflight (installRun newContent s [Resolved (VString mkOut); Rejected err]) = [] /\
   status (session (installRun newContent s [Resolved (VString mkOut); Rejected err]))
     = "Install failed" /\
   map fst (issued (installRun newContent s [Resolved (VString mkOut); Rejected err]))
     = [mktempCmd; writeCmd (trim mkOut) newContent]) /\
  (inflight (installRun newContent s
               [Resolved (VString mkOut); Resolved ok; Rejected err]) = [] /\
   status (session (installRun newContent s
               [Resolved (VString mkOut); Resolved ok; Rejected err]))
     = "Install failed" /\
   map fst (issued (installRun newContent s
               [Resolved (VString mkOut); Resolved ok; Rejected err]))
     = [mktempCmd; writeCmd (trim mkOut) newContent; installArgs s (trim mkOut)]) /\
  map fst (issued (installRun newContent s
               [Resolved (VString mkOut); Resolved ok; Resolved ok']))
    = [mktempCmd; writeCmd (trim mkOut) newContent; installArgs s (trim mkOut);
       removeCmd (trim mkOut)].
Proof.
  intros H. unfold installRun, call, idle, installCrontab. run_pipeline.
  rewrite H. run_pipeline. repeat split.
Qed.

Lemma failed_run_issues_no_removal_witness :
  ~ In (removeCmd "/tmp/cockpit-cron-a1B2c3")
       (map fst (issued (installRun ("not a schedule" ++ nl) loadedSession
          [Resolved (VString ("/tmp/cockpit-cron-a1B2c3" ++ nl));
           Resolved (VString ""); Rejected badCrontab]))) /\
  inflight (installRun ("not a schedule" ++ nl) loadedSession
          [Resolved (VString ("/tmp/cockpit-cron-a1B2c3" ++ nl));
           Resolved (VString ""); Rejected badCrontab]) = [].
Proof.
  destruct (failed_run_issues_no_removal loadedSession ("not a schedule" ++ nl)
              ("/tmp/cockpit-cron-a1B2c3" ++ nl) (VString "") (VString "")
              badCrontab eq_refl) as (_ & (Hdone & _ & Hissued) & _).
  split; [|exact Hdone].
  rewrite Hissued. intros [E|[E|[E|[]]]]; discriminate E.
Defined.

(* ================================================================== *)
(** ** Requests while a run is in flight *)
(* ================================================================== *)

Lemma call_installCrontab (newContent : string) (s : Session) (w : World) :
  settle (installCrontab newContent s) (inflight w) (issued w)
  = mkWorld (fst (installCrontab newContent s))
            (inflight w ++ [mkPending (mktempCmd, isDifferentUser s)
                                      (afterMktemp newContent)])
            (issued w ++ [(mktempCmd, isDifferentUser s)]).
Proof. reflexivity. Qed.

(** C9 (as amended).  The program keeps no busy flag and knows no Busy
    outcome.  A mutation request is handled the same way whatever is in
    flight: when it is accepted it starts a run of its own, whose [mktemp]
    is issued at once while the commands already in flight stay in flight,
    and when it is not (an [Add] with an invalid schedule) nothing is
    issued.  The request itself leaves the raw content and the parsed lines
    as they are.  Hence any number of runs can be in flight at once. *)
Theorem mutation_requests_are_never_refused (w : World) (m : Mutation) :
  List.length (inflight (call (perform m) w))
    = List.length (inflight w) + (if accepted m then 1 else 0) /\
  firstn (List.length (inflight w)) (inflight (call (perform m) w)) = inflight w /\
  issued (call (perform m) w)
    = (issued w ++ (if accepted m
                    then [(mktempCmd, isDifferentUser (session w))]
                    else []))%list /\
  rawCrontab (session (call (perform m) w)) = rawCrontab (session w) /\
  parsedLines (session (call (perform m) w)) = parsedLines (session w) /\
  (forall (s0 : Session) (n : nat),
      exists w', Reachable s0 w' /\ List.length (inflight w') = n).
Proof.
  assert (Hstart : forall newContent s,
     isDifferentUser s = isDifferentUser (session w) ->
     rawCrontab s = rawCrontab (session w) ->
     parsedLines s = parsedLines (session w) ->
     let w' := settle (installCrontab newContent s) (inflight w) (issued w) in
     List.length (inflight w') = List.length (inflight w) + 1 /\
     firstn (List.length (inflight w)) (inflight w') = inflight w /\
     issued w' = (issued w ++ [(mktempCmd, isDifferentUser (session w))])%list /\
     rawCrontab (session w') = rawCrontab (session w) /\
     parsedLines (session w') = parsedLines (session w)).
  { intros newContent s Hd Hr Hp. cbv zeta. rewrite call_installCrontab.
    cbn [inflight issued session]. rewrite length_app, Hd.
    repeat split; try assumption.
    rewrite firstn_app, Nat.sub_diag, firstn_all. cbn [firstn].
    apply app_nil_r. }
  repeat split.
  1-5: destruct m as [expr cmd|parsedIndex|content]; unfold call, perform, accepted;
       [ unfold addEntry; destruct (validateCron expr) eqn:Hv; cbn [negb];
         [ apply (Hstart _ (clearError (session w))); reflexivity
         | cbn [settle snd fst inflight issued session setError rawCrontab parsedLines];
           rewrite ?Nat.add_0_r, ?app_nil_r, ?firstn_all; reflexivity ]
       | apply (Hstart _ (session w)); reflexivity
       | apply (Hstart _ (session w)); reflexivity ].
  intros s0 n. induction n as [|n (w' & Hw & Hn)].
  - exists (idle s0). split; [constructor | reflexivity].
  - exists (call (perform (ReplaceAll "")) w'). split.
    + now constructor.
    + unfold call, perform, saveEditor. rewrite call_installCrontab.
      cbn [inflight]. rewrite length_app, Hn. simpl. lia.
Qed.

(** C9 (as stated, refuted).  Two requests in a row leave two runs in
    flight. *)
Lemma one_run_in_flight_counterexample :
  ~ (forall (s0 : Session) (w : World),
       Reachable s0 w -> List.length (inflight w) <= 1).
Proof.
  intros H.
  assert (Hr : Reachable loadedSession twoAdds)
    by (unfold twoAdds; do 2 constructor; constructor).
  specialize (H loadedSession twoAdds Hr). vm_compute in H. lia.
Qed.

(** The two runs of [twoAdds], their commands answering in turn: the
    stages interleave, both contents are built from the same raw content,
    and the second [crontab] replaces what the first installed by a content
    without the first entry. *)
Example overlapping_adds_interleave :
  map fst (issued (answerAll
     [Resolved (VString "/tmp/a"); Resolved (VString "/tmp/b");
      Resolved (VString ""); Resolved (VString "");
      Resolved (VString ""); Resolved (VString "");
      Resolved (VString ""); Resolved (VString "")] twoAdds))
  = [mktempCmd; mktempCmd;
     writeCmd "/tmp/a" (addContent (rawCrontab loadedSession) "0 3 * * *" "/bin/a");
     writeCmd "/tmp/b" (addContent (rawCrontab loadedSession) "0 4 * * *" "/bin/b");
     ["crontab"; "-u"; "bob"; "/tmp/a"]; ["crontab"; "-u"; "bob"; "/tmp/b"];
     removeCmd "/tmp/a"; removeCmd "/tmp/b";
     ["crontab"; "-u"; "bob"; "-l"]; ["crontab"; "-u"; "bob"; "-l"]].
Proof. vm_compute. reflexivity. Qed.

(* ================================================================== *)
(** ** The add form *)
(* ================================================================== *)

Lemma trimEnd_idempotent (s : string) : trimEnd (trimEnd s) = trimEnd s.
Proof.
  induction s as [|c r IH]; [reflexivity|].
  cbn [trimEnd].
  destruct (isWhiteSpace c && isEmpty (trimEnd r)) eqn:E; [reflexivity|].
  cbn [trimEnd]. rewrite IH, E. reflexivity.
Qed.

Lemma trim_idempotent (s : string) : trim (trim s) = trim s.
Proof.
  destruct (trim s) as [|c r] eqn:E; [reflexivity|].
  pose proof (trim_head s c r E) as Hc.
  unfold trim at 1. rewrite (trimStart_fixed c r Hc), <- E.
  unfold trim. apply trimEnd_idempotent.
Qed.

Lemma validateCron_trim (expr : string) : validateCron (trim expr) = validateCron expr.
Proof. unfold validateCron. now rewrite trim_idempotent. Qed.

Lemma addContent_trim (raw expr cmd : string) :
  addContent raw (trim expr) (trim cmd) = addContent raw expr cmd.
Proof. unfold addContent. now rewrite !trim_idempotent. Qed.

(** X1.  The add form starts the install pipeline exactly when the schedule
    is valid and the command is not blank; the content it installs is the
    one [addEntry] builds from the values as typed, the trimming of the
    handler changing nothing.  In every other case it shows an error, issues
    no command and leaves the document as it is. *)
Theorem submitAdd_starts_iff (exprValue cmdValue : string) (s : Session) :
  (snd (submitAdd exprValue cmdValue s) <> Done <->
     validateCron exprValue = true /\ trim cmdValue <> "") /\
  (validateCron exprValue = true -> trim cmdValue <> "" ->
     exists s', submitAdd exprValue cmdValue s
                = installCrontab (addContent (rawCrontab s) exprValue cmdValue) s') /\
  (snd (submitAdd exprValue cmdValue s) = Done ->
     error (fst (submitAdd exprValue cmdValue s)) <> None /\
     rawCrontab (fst (submitAdd exprValue cmdValue s)) = rawCrontab s /\
     parsedLines (fst (submitAdd exprValue cmdValue s)) = parsedLines s).
Proof.
  assert (Hrej : forall msg s1,
     rawCrontab s1 = rawCrontab s -> parsedLines s1 = parsedLines s ->
     (validateCron exprValue = true -> trim cmdValue <> "" -> False) ->
     (snd (setError msg s1, Done) <> Done <->
        validateCron exprValue = true /\ trim cmdValue <> "") /\
     (validateCron exprValue = true -> trim cmdValue <> "" ->
        exists s', (setError msg s1, Done)
                   = installCrontab (addContent (rawCrontab s) exprValue cmdValue) s') /\
     (snd (setError msg s1, Done) = Done ->
        error (fst (setError msg s1, Done)) <> None /\
        rawCrontab (fst (setError msg s1, Done)) = rawCrontab s /\
        parsedLines (fst (setError msg s1, Done)) = parsedLines s)).
  { intros msg s1 Hr Hp Hno. split; [|split].
    - split; [intros H; now elim H | intros [Hv Hc]; now elim (Hno Hv Hc)].
    - intros Hv Hc. now elim (Hno Hv Hc).
    - intros _. cbn. repeat split; try assumption. discriminate. }
  unfold submitAdd. cbv zeta.
  destruct (truthy (trim exprValue)) eqn:He; cbn [negb orb].
  - destruct (truthy (trim cmdValue)) eqn:Hc; cbn [negb].
    + apply truthy_true in Hc. unfold addEntry.
      rewrite validateCron_trim, addContent_trim.
      destruct (validateCron exprValue) eqn:Hv; cbn [negb].
      * split; [|split].
        -- split; [intros _; now split | intros _; discriminate].
        -- intros _ _. eexists. reflexivity.
        -- intros H. discriminate H.
      * apply Hrej; [reflexivity | reflexivity | intros H; discriminate H].
    + unfold truthy in Hc. apply negb_false_iff, isEmpty_true in Hc.
      apply Hrej; [reflexivity | reflexivity | intros _ H; now elim H].
  - unfold truthy in He. apply negb_false_iff, isEmpty_true in He.
    apply Hrej; [reflexivity | reflexivity |].
    intros H _. apply validateCron_trim_nonempty in H. now elim H.
Qed.

Lemma submitAdd_starts_iff_witness :
  exists s', submitAdd "  */10 * * * *  " " /bin/true " loadedSession
             = installCrontab
                 (addContent (rawCrontab loadedSession) "  */10 * * * *  " " /bin/true ")
                 s'.
Proof.
  apply (proj1 (proj2 (submitAdd_starts_iff "  */10 * * * *  " " /bin/true "
                         loadedSession))).
  - reflexivity.
  - discriminate.
Defined.

(* ================================================================== *)
(** ** What the mutations install *)
(* ================================================================== *)

Lemma endsWithChar_nl (a : string) : endsWithChar LF (a ++ nl) = true.
Proof. rewrite endsWithChar_app by discriminate. reflexivity. Qed.

Lemma addContent_ends_LF (raw expr cmd : string) :
  endsWithChar LF (addContent raw expr cmd) = true.
Proof.
  unfold addContent. cbv zeta.
  destruct (truthy raw && negb (isEmpty (trim raw))).
  - rewrite <- !append_assoc. apply endsWithChar_nl.
  - rewrite <- !append_assoc. apply endsWithChar_nl.
Qed.

(** X2.  Whatever a mutation that gets past its checks installs ends with
    a line feed: the content built for an added entry, for a deleted line
    and for the text saved from the editor. *)
Theorem installed_content_ends_with_LF (m : Mutation) (s : Session) :
  accepted m = true ->
  exists (newContent : string) (s' : Session),
    perform m s = installCrontab newContent s' /\
    endsWithChar LF newContent = true.
Proof.
  destruct m as [expr cmd|parsedIndex|content]; cbn [accepted perform]; intros H.
  - unfold addEntry. rewrite H. cbn [negb]. do 2 eexists.
    split; [reflexivity | apply addContent_ends_LF].
  - unfold deleteEntryAt, serialize. do 2 eexists.
    split; [reflexivity | apply endsWithChar_nl].
  - unfold saveEditor. destruct (endsWithChar LF content) eqn:E; do 2 eexists.
    + split; [reflexivity | exact E].
    + split; [reflexivity | apply endsWithChar_nl].
Qed.

Lemma installed_content_ends_with_LF_witness :
  exists (newContent : string) (s' : Session),
    perform (ReplaceAll "MAILTO=ops") loadedSession = installCrontab newContent s' /\
    endsWithChar LF newContent = true.
Proof.
  exact (installed_content_ends_with_LF (ReplaceAll "MAILTO=ops") loadedSession eq_refl).
Defined.

(* ================================================================== *)
(** ** The text of a failure *)
(* ================================================================== *)

Lemma startsWith_app_l (p a b : string) :
  startsWith p a = true -> startsWith p (a ++ b) = true.
Proof.
  revert a. induction p as [|c r IH]; intros a H; [reflexivity|].
  destruct a as [|x t]; [discriminate|].
  simpl in H. apply andb_true_iff in H. destruct H as [H1 H2].
  simpl. now rewrite H1, IH.
Qed.

Lemma includes_app_l (p a b : string) :
  includes p a = true -> includes p (a ++ b) = true.
Proof.
  induction a as [|x t IH]; intros H.
  - rewrite includes_unfold in H. rewrite orb_false_r in H.
    destruct p; [|discriminate]. destruct b; reflexivity.
  - rewrite includes_unfold in H. apply orb_true_iff in H.
    change (String x t ++ b) with (String x (t ++ b)).
    rewrite includes_unfold. cbv iota. apply orb_true_iff. destruct H as [H|H].
    + left. now apply (startsWith_app_l p (String x t) b).
    + right. now apply IH.
Qed.

Lemma includes_app_r (p a b : string) :
  includes p b = true -> includes p (a ++ b) = true.
Proof.
  intros H. induction a as [|x t IH]; [exact H|].
  change (String x t ++ b) with (String x (t ++ b)).
  rewrite includes_unfold. cbv iota. rewrite IH. apply orb_true_r.
Qed.

Lemma toLowerCase_app (a b : string) :
  toLowerCase (a ++ b) = toLowerCase a ++ toLowerCase b.
Proof. induction a as [|x t IH]; simpl; [reflexivity | now rewrite IH]. Qed.

(** A phrase found in one of the joined parts is found in the whole. *)
Lemma includes_join (p sep x : string) (parts : list string) :
  In x parts -> includes p (toLowerCase x) = true ->
  includes p (toLowerCase (join sep parts)) = true.
Proof.
  intros Hin Hx. induction parts as [|y rest IH]; [contradiction|].
  destruct rest as [|z rest'].
  - destruct Hin as [->|[]]. exact Hx.
  - change (join sep (y :: z :: rest')) with (y ++ sep ++ join sep (z :: rest')).
    rewrite !toLowerCase_app. destruct Hin as [->|Hin].
    + now apply includes_app_l.
    + apply includes_app_r, includes_app_r. now apply IH.
Qed.

Lemma In_pushCaptured_old (x : string) (c : option Captured) (parts : list string) :
  In x parts -> In x (pushCaptured c parts).
Proof.
  intros H. unfold pushCaptured. destruct c as [p|]; [|exact H].
  destruct (truthyCaptured (Some p)); [|exact H]. apply in_or_app. now left.
Qed.

Lemma In_pushString_old (x : string) (v : option string) (parts : list string) :
  In x parts -> In x (pushString v parts).
Proof.
  intros H. unfold pushString. destruct v as [u|]; [|exact H].
  destruct (truthy u); [|exact H]. apply in_or_app. now left.
Qed.

Lemma In_pushCaptured_new (p : Captured) (parts : list string) :
  normalizePart p <> "" -> In (normalizePart p) (pushCaptured (Some p) parts).
Proof.
  intros H. unfold pushCaptured.
  assert (Ht : truthyCaptured (Some p) = true).
  { destruct p as [v|chunks]; [|reflexivity]. simpl. now apply truthy_true. }
  rewrite Ht. apply in_or_app. right. now left.
Qed.

Lemma In_pushString_new (v : string) (parts : list string) :
  v <> "" -> In v (pushString (Some v) parts).
Proof.
  intros H. unfold pushString. apply truthy_true in H. rewrite H.
  apply in_or_app. right. now left.
Qed.

Lemma includes_nonempty (p x : string) :
  p <> "" -> includes p (toLowerCase x) = true -> x <> "".
Proof.
  intros Hp H E. subst x. destruct p; [congruence | discriminate H].
Qed.

(** X3.  The no-crontab phrase is looked for in everything a failure
    carries: when the captured error stream, the captured output, the
    message or the problem code holds it (in any case of its letters), the
    text [errorText] builds holds it, and the read path does not take the
    generic branch. *)
Theorem errorText_finds_phrase_in_any_field (err : Failure) (v : string) :
  (exists p, stderr err = Some p /\ normalizePart p = v) \/
  (exists p, stdout err = Some p /\ normalizePart p = v) \/
  message err = Some v \/
  problem err = Some v ->
  includes "no crontab for" (toLowerCase v) = true ->
  includes "no crontab for" (toLowerCase (errorText err)) = true /\
  loadFailureKind err <> Generic.
Proof.
  intros Hfield Hv.
  assert (Hne : v <> "") by (apply (includes_nonempty "no crontab for"); [discriminate | exact Hv]).
  assert (Hin : In v (pushString (problem err) (pushString (message err)
                   (pushCaptured (stdout err) (pushCaptured (stderr err) []))))).
  { destruct Hfield as [(p & Hp & E)|[(p & Hp & E)|[Hm|Hp]]].
    - apply In_pushString_old, In_pushString_old, In_pushCaptured_old.
      rewrite Hp, <- E. apply In_pushCaptured_new. now rewrite E.
    - apply In_pushString_old, In_pushString_old.
      rewrite Hp, <- E. apply In_pushCaptured_new. now rewrite E.
    - apply In_pushString_old. rewrite Hm. now apply In_pushString_new.
    - rewrite Hp. now apply In_pushString_new. }
  assert (Htext : includes "no crontab for" (toLowerCase (errorText err)) = true).
  { unfold errorText. cbv zeta. now apply (includes_join _ _ v). }
  split; [exact Htext|].
  unfold loadFailureKind. rewrite Htext. destruct (isAccessDenied err); discriminate.
Qed.

Lemma errorText_finds_phrase_in_any_field_witness :
  includes "no crontab for"
    (toLowerCase (errorText
       (mkFailure None (Some "crontab exited with code 1") None
                  (Some (CArray ["crontab: no cron"; "tab for bob"]))
                  "crontab exited with code 1" "{}"))) = true.
Proof.
  apply (errorText_finds_phrase_in_any_field
           (mkFailure None (Some "crontab exited with code 1") None
                  (Some (CArray ["crontab: no cron"; "tab for bob"]))
                  "crontab exited with code 1" "{}")
           "crontab: no crontab for bob").
  - right. left. eexists. split; reflexivity.
  - reflexivity.
Defined.

Lemma In_allAscii (c : ascii) : In c allAscii.
Proof.
  unfold allAscii. rewrite <- (ascii_nat_embedding c).
  apply in_map, in_seq. pose proof (nat_ascii_bounded c). lia.
Qed.

(** For a lower-case letter or a blank of a pattern, the comparison of
    the [i] flag is the comparison with the lower-cased character. *)
Lemma canonicalize_eq_lower (a b : ascii) :
  isPatternChar a = true ->
  N.eqb (canonicalize a) (canonicalize b) = Ascii.eqb a (toLowerChar b).
Proof.
  assert (Hall : forallb (fun x => forallb (fun y =>
            implb (isPatternChar x)
                  (Bool.eqb (N.eqb (canonicalize x) (canonicalize y))
                            (Ascii.eqb x (toLowerChar y)))) allAscii) allAscii = true)
    by (vm_compute; reflexivity).
  intros Ha. rewrite forallb_forall in Hall.
  specialize (Hall a (In_allAscii a)). rewrite forallb_forall in Hall.
  specialize (Hall b (In_allAscii b)). rewrite Ha in Hall.
  now apply Bool.eqb_prop in Hall.
Qed.

Lemma startsWithCI_lower (p s : string) :
  isPattern p = true -> startsWithCI p s = startsWith p (toLowerCase s).
Proof.
  revert s. induction p as [|a r IH]; intros s Hp; [destruct s; reflexivity|].
  cbn [isPattern] in Hp. apply andb_true_iff in Hp. destruct Hp as [Ha Hr].
  destruct s as [|b t]; [reflexivity|].
  cbn [startsWithCI toLowerCase startsWith].
  now rewrite (canonicalize_eq_lower a b Ha), (IH t Hr).
Qed.

Lemma existsb_orb_pointwise {A : Type} (f g : A -> bool) (l : list A) :
  existsb (fun x => f x || g x) l = existsb f l || existsb g l.
Proof.
  induction l as [|x rest IH]; [reflexivity|].
  cbn [existsb]. rewrite IH.
  destruct (f x), (g x), (existsb f rest), (existsb g rest); reflexivity.
Qed.

Lemma existsb_ext_in {A : Type} (f g : A -> bool) (l : list A) :
  (forall x, In x l -> f x = g x) -> existsb f l = existsb g l.
Proof.
  induction l as [|x rest IH]; intros H; [reflexivity|].
  cbn [existsb]. rewrite (H x (or_introl eq_refl)), IH; [reflexivity|].
  intros y Hy. apply H. now right.
Qed.

(** A test with the [i] flag for lower-case literals is a search in the
    lower-cased text. *)
Lemma testAnyCI_lower (alts : list string) (s : string) :
  forallb isPattern alts = true ->
  testAnyCI alts s = existsb (fun p => includes p (toLowerCase s)) alts.
Proof.
  intros Hp. rewrite forallb_forall in Hp. induction s as [|b t IH].
  - cbn [testAnyCI toLowerCase]. rewrite orb_false_r.
    apply existsb_ext_in. intros p Hin.
    rewrite includes_unfold, orb_false_r. now apply startsWithCI_lower, Hp.
  - cbn [testAnyCI]. rewrite IH.
    rewrite <- existsb_orb_pointwise. apply existsb_ext_in. intros p Hin.
    rewrite (includes_unfold p (toLowerCase (String b t))).
    cbn [toLowerCase]. now rewrite (startsWithCI_lower p (String b t) (Hp p Hin)).
Qed.

(** X4.  [isAccessDenied] is true exactly when the problem code is
    [access-denied] or the message (the string form of the failure when it
    has no message), put in lower case, holds one of the four phrases
    [permission denied], [access denied], [authorization], [not authorized]:
    the [i] flag of its regular expression amounts to that. *)
Theorem isAccessDenied_iff_lowercase_phrase (err : Failure) :
  isAccessDenied err = true <->
    problem err = Some "access-denied" \/
    exists p, In p accessDeniedPatterns /\
              includes p (toLowerCase (orElse (message err) (asString err))) = true.
Proof.
  unfold isAccessDenied.
  destruct (strictEq (problem err) "access-denied") eqn:E.
  - apply strictEq_true in E. tauto.
  - cbv zeta. rewrite (testAnyCI_lower accessDeniedPatterns _ eq_refl).
    rewrite existsb_exists. split.
    + intros (p & Hin & H). right. now exists p.
    + intros [H|(p & Hin & H)].
      * apply strictEq_true in H. congruence.
      * now exists p.
Qed.

(* ================================================================== *)
(** ** The list and the confirmation dialog *)
(* ================================================================== *)

Lemma renderFrom_length (k : nat) (lines : list Line) :
  List.length (renderFrom k lines) = List.length lines.
Proof.
  revert k. induction lines as [|L rest IH]; intros k; simpl; [reflexivity|].
  now rewrite IH.
Qed.

Lemma renderFrom_entry (k : nat) (lines : list Line) (t : string) (i : nat) :
  In (EntryRow t i) (renderFrom k lines) <->
  exists L, k <= i /\ nth_error lines (i - k) = Some L /\
            type L = entry /\ text L = t.
Proof.
  revert k. induction lines as [|L rest IH]; intros k; cbn [renderFrom In].
  - split; [contradiction|]. intros (L & _ & H & _). destruct (i - k); discriminate H.
  - rewrite IH. split.
    + intros [H|(L' & Hk & Hn & Ht)].
      * unfold renderRow in H. destruct (type L) eqn:E; try discriminate H.
        injection H as H1 H2. subst. exists L. rewrite Nat.sub_diag.
        repeat split; auto.
      * exists L'. split; [lia|]. split; [|exact Ht].
        replace (i - k) with (S (i - S k)) by lia. exact Hn.
    + intros (L' & Hk & Hn & Ht & Hx).
      destruct (Nat.eq_dec i k) as [->|Hne].
      * left. rewrite Nat.sub_diag in Hn. injection Hn as ->.
        unfold renderRow. now rewrite Ht, Hx.
      * right. exists L'. split; [lia|].
        replace (i - k) with (S (i - S k)) in Hn by lia. now repeat split.
Qed.

Lemma length_removed (A : Type) (i : nat) (l : list A) :
  i < List.length l ->
  List.length (firstn i l ++ skipn (S i) l) = List.length l - 1.
Proof.
  intros H. rewrite length_app, length_firstn, length_skipn. lia.
Qed.

Lemma renderList_blank_test (s : Session) :
  negb (truthy (rawCrontab s)) || isEmpty (trim (rawCrontab s))
  = isEmpty (trim (rawCrontab s)).
Proof. destruct (rawCrontab s); reflexivity. Qed.

Lemma renderList_entries (s : Session) (t : string) (i : nat) :
  isEmpty (trim (rawCrontab s)) = false ->
  (In (EntryRow t i) (renderList s) <->
   exists L, nth_error (parsedLines s) i = Some L /\ type L = entry /\ text L = t).
Proof.
  intros H. unfold renderList. rewrite renderList_blank_test, H.
  rewrite renderFrom_entry, Nat.sub_0_r. split.
  - intros (L & _ & Hn). now exists L.
  - intros (L & Hn). exists L. split; [lia | exact Hn].
Qed.

(** X5.  The list shows the empty notice alone whenever the raw content is
    blank, whatever the parsed lines are.  Otherwise it shows one row per
    parsed line, and the Delete buttons are exactly those of the entry
    lines, each with the position of its line: comments and blank lines
    cannot be deleted from the list, and a click never names a position
    outside the lines shown. *)
Theorem renderList_delete_buttons (s : Session) :
  (isEmpty (trim (rawCrontab s)) = true ->
     renderList s
     = [EmptyNotice ("No crontab entries for " ++ userDisplayName s ++ ".")]) /\
  (isEmpty (trim (rawCrontab s)) = false ->
     List.length (renderList s) = List.length (parsedLines s) /\
     forall t i,
       In (EntryRow t i) (renderList s) <->
       exists L, nth_error (parsedLines s) i = Some L /\
                 type L = entry /\ text L = t).
Proof.
  split; intros H.
  - unfold renderList. now rewrite renderList_blank_test, H.
  - split.
    + unfold renderList. rewrite renderList_blank_test, H. apply renderFrom_length.
    + intros t i. now apply renderList_entries.
Qed.

Lemma renderList_delete_buttons_witness :
  renderList (mkSession (nl ++ "  ") (parseCrontab (nl ++ "  ")) None None "" None [])
  = [EmptyNotice "No crontab entries for current user."].
Proof.
  apply (proj1 (renderList_delete_buttons
     (mkSession (nl ++ "  ") (parseCrontab (nl ++ "  ")) None None "" None []))).
  reflexivity.
Defined.

(** X6.  A click on the Delete button of a row, then Yes, with nothing
    happening in between: the dialog names the text of the row, the install
    pipeline starts with the shown lines but that one, one fewer than
    before, and the kept index is cleared, so that a second Yes issues
    nothing.  No in place of Yes issues nothing either. *)
Theorem delete_from_list_then_confirm (p : Page) (t : string) (i : nat) :
  In (EntryRow t i) (renderList (session (world p))) ->
  confirmText (confirmDelete (Z.of_nat i) p) = "Remove this entry?" ++ nl ++ nl ++ t /\
  world (confirmYes (confirmDelete (Z.of_nat i) p))
    = call (installCrontab
              (serialize (map text (firstn i (parsedLines (session (world p)))
                                    ++ skipn (S i) (parsedLines (session (world p)))))))
           (world p) /\
  List.length (firstn i (parsedLines (session (world p)))
               ++ skipn (S i) (parsedLines (session (world p))))
    = List.length (parsedLines (session (world p))) - 1 /\
  nth_error (map text (parsedLines (session (world p)))) i = Some t /\
  confirmYes (confirmYes (confirmDelete (Z.of_nat i) p))
    = confirmYes (confirmDelete (Z.of_nat i) p) /\
  world (confirmYes (confirmNo (confirmDelete (Z.of_nat i) p))) = world p.
Proof.
  intros Hin.
  assert (Hb : isEmpty (trim (rawCrontab (session (world p)))) = false).
  { destruct (isEmpty (trim (rawCrontab (session (world p))))) eqn:E; [|reflexivity].
    unfold renderList in Hin. rewrite renderList_blank_test, E in Hin.
    destruct Hin as [H|[]]. discriminate H. }
  apply (renderList_entries _ t i Hb) in Hin.
  destruct Hin as (L & Hn & Ht & Hx).
  assert (Hlt : i < List.length (parsedLines (session (world p)))).
  { apply nth_error_Some. congruence. }
  repeat split.
  - unfold confirmDelete. cbn [confirmText].
    destruct (Z.ltb_spec (Z.of_nat i) 0) as [Hneg|_]; [lia|].
    rewrite Nat2Z.id, Hn, Hx. reflexivity.
  - unfold confirmYes, confirmDelete. cbn [toDeleteIndex world].
    unfold call, deleteEntryAt, newLinesOf.
    replace (Z.of_nat i) with (Z.of_nat (0 + i)) by reflexivity.
    rewrite dropIndexFrom_in by exact Hlt. reflexivity.
  - now apply length_removed.
  - rewrite nth_error_map, Hn. cbn. now rewrite Hx.
Qed.

Lemma delete_from_list_then_confirm_witness :
  confirmText (confirmDelete 0 (mkPage (idle loadedSession) None false ""))
    = "Remove this entry?" ++ nl ++ nl ++ "0 2 * * * /usr/local/bin/backup.sh" /\
  map fst (issued (world (confirmYes (confirmYes
             (confirmDelete 0 (mkPage (idle loadedSession) None false ""))))))
    = [mktempCmd].
Proof.
  destruct (delete_from_list_then_confirm
              (mkPage (idle loadedSession) None false "")
              "0 2 * * * /usr/local/bin/backup.sh" 0 (or_introl eq_refl))
    as (Htext & _ & _ & _ & Htwice & _).
  split; [exact Htext|].
  change (Z.of_nat 0) with 0%Z in Htwice. rewrite Htwice. reflexivity.
Defined.

(* ================================================================== *)
(** ** Whole runs of the install pipeline *)
(* ================================================================== *)

Lemma rawCrontab_loadResolved (res : SpawnValue) (s : Session) :
  rawCrontab (loadResolved res s) = loadedText res /\
  parsedLines (loadResolved res s) = parseCrontab (loadedText res) /\
  error (loadResolved res s) = error s /\
  userSelect (loadResolved res s) = userSelect s /\
  currentUser (loadResolved res s) = currentUser s.
Proof. destruct res as [v|[v|]|chunks]; repeat split. Qed.

(** X7.  A run in which every step succeeds issues five commands in this
    order: [mktemp], the write, [crontab <tmp>], [rm -f <tmp>] and the
    [crontab -l] of the reload, each with the elevation the selection
    asks for.  The document afterwards is what the reload returned, not
    what was written, and an error shown before the run is still shown. *)
Theorem successful_install_reloads
  (s : Session) (newContent mkOut : string) (ok1 ok2 ok3 res : SpawnValue) :
  truthy (trim mkOut) = true ->
  let w := installRun newContent s
             [Resolved (VString mkOut); Resolved ok1; Resolved ok2; Resolved ok3;
              Resolved res] in
  inflight w = [] /\
  issued w = map (fun args => (args, isDifferentUser s))
               [mktempCmd; writeCmd (trim mkOut) newContent;
                installArgs s (trim mkOut); removeCmd (trim mkOut);
                match getUserForCrontabFlag s with
                | Some userFlag => ["crontab"; "-u"; userFlag; "-l"]
                | None => ["crontab"; "-l"]
                end] /\
  rawCrontab (session w) = loadedText res /\
  parsedLines (session w) = parseCrontab (loadedText res) /\
  error (session w) = error s.
Proof.
  intros H. cbv zeta. unfold installRun, call, idle, installCrontab. run_pipeline.
  rewrite H. run_pipeline. unfold loadCrontab. run_pipeline.
  repeat split; apply rawCrontab_loadResolved.
Qed.

Lemma successful_install_reloads_witness :
  rawCrontab (session (installRun ("0 3 * * * /bin/a" ++ nl) loadedSession
     [Resolved (VString ("/tmp/cockpit-cron-a1B2c3" ++ nl)); Resolved (VString "");
      Resolved (VString ""); Resolved (VString "");
      Resolved (VObject (Some ("# kept by the host" ++ nl)))]))
  = "# kept by the host" ++ nl.
Proof.
  apply (successful_install_reloads loadedSession ("0 3 * * * /bin/a" ++ nl)
           ("/tmp/cockpit-cron-a1B2c3" ++ nl) (VString "") (VString "") (VString "")
           (VObject (Some ("# kept by the host" ++ nl))) eq_refl).
Defined.

(** X8.  When [mktemp] resolves with nothing usable as a path (a blank
    string, an object without output, an array), the run stops there: no
    further command is issued, the error names the temp file, the status is
    [Install failed] and the document is as it was. *)
Theorem unusable_mktemp_answer_stops_the_run
  (s : Session) (newContent : string) (mk : SpawnValue) :
  match tmpOf mk with Some tmp => truthy tmp | None => false end = false ->
  let w := installRun newContent s [Resolved mk] in
  inflight w = [] /\
  map fst (issued w) = [mktempCmd] /\
  error (session w)
    = Some "Failed to install crontab: Failed to create temp file on host." /\
  status (session w) = "Install failed" /\
  rawCrontab (session w) = rawCrontab s /\
  parsedLines (session w) = parsedLines s.
Proof.
  intros H. cbv zeta. unfold installRun, call, idle, installCrontab.
  cbn [answerAll answer settle session inflight issued snd fst nth_error
       resume command app removeNth map afterMktemp].
  destruct (tmpOf mk) as [tmp|]; [rewrite H|]; repeat split.
Qed.

Lemma unusable_mktemp_answer_stops_the_run_witness :
  map fst (issued (installRun ("0 3 * * * /bin/a" ++ nl) loadedSession
                     [Resolved (VString ("  " ++ nl))])) = [mktempCmd].
Proof.
  apply (unusable_mktemp_answer_stops_the_run loadedSession
           ("0 3 * * * /bin/a" ++ nl) (VString ("  " ++ nl)) eq_refl).
Defined.

(* ================================================================== *)
(** ** Parsing what was serialized *)
(* ================================================================== *)

Lemma splitLines_join (texts : list string) :
  texts <> [] -> Forall (fun l => plainLine l = true) texts ->
  splitLines (join nl texts) = texts.
Proof.
  induction texts as [|x rest IH]; [congruence|].
  intros _ H. inversion H as [|? ? Hx Hrest]; subst.
  unfold plainLine in Hx. apply andb_true_iff in Hx. destruct Hx as [Hlf Hcr].
  apply negb_true_iff in Hcr.
  destruct rest as [|y rest'].
  - now apply splitLines_noLF.
  - change (join nl (x :: y :: rest')) with (x ++ nl ++ join nl (y :: rest')).
    rewrite splitLines_app by exact Hcr.
    rewrite IH; [|discriminate | exact Hrest]. now rewrite splitLines_noLF.
Qed.

Lemma splitLines_serialize (texts : list string) :
  texts <> [] -> Forall (fun l => plainLine l = true) texts ->
  splitLines (serialize texts) = (texts ++ [""])%list.
Proof.
  intros Hne H. unfold serialize.
  assert (Hcr : endsWithChar CR (join nl texts) = false).
  { clear Hne. induction texts as [|x rest IH]; [reflexivity|].
    inversion H as [|? ? Hx Hrest]; subst.
    destruct rest as [|y rest'].
    - unfold plainLine in Hx. apply andb_true_iff in Hx.
      now apply negb_true_iff, Hx.
    - change (join nl (x :: y :: rest')) with (x ++ nl ++ join nl (y :: rest')).
      destruct (join nl (y :: rest')) as [|c t] eqn:E.
      + rewrite endsWithChar_app by discriminate. reflexivity.
      + rewrite endsWithChar_app by discriminate.
        change (nl ++ String c t) with (String LF (String c t)).
        change (endsWithChar CR (String LF (String c t)))
          with (endsWithChar CR (String c t)).
        now apply IH. }
  rewrite <- (append_empty_r nl), splitLines_app by exact Hcr.
  now rewrite splitLines_join.
Qed.

(** X9.  Parsing what [deleteEntryAt] serializes gives the lines back
    followed by one more empty line, for a non-empty list of lines that
    hold no line feed and do not end with a carriage return.  For a text
    [T] with line feeds as line endings that does not end with a carriage
    return, parsing, serializing and parsing again gives the lines of [T]
    and one empty line more: every such turn adds a blank line at the
    end. *)
Theorem reparse_adds_a_blank_line (texts : list string) (T : string) :
  (texts <> [] -> Forall (fun l => plainLine l = true) texts ->
     map text (parseCrontab (serialize texts)) = (texts ++ [""])%list) /\
  (noCRLF T = true -> endsWithChar CR T = false ->
     map text (parseCrontab (serialize (map text (parseCrontab T))))
     = (map text (parseCrontab T) ++ [""])%list) /\
  map text (parseCrontab (serialize [])) = [""; ""].
Proof.
  unfold parseCrontab. rewrite !map_text_classifyFrom. repeat split.
  - apply splitLines_serialize.
  - intros Hn Hcr. unfold serialize.
    rewrite (join_splitLines T Hn), <- (append_empty_r nl).
    now rewrite splitLines_app.
Qed.

Lemma reparse_adds_a_blank_line_witness :
  map text (parseCrontab (serialize (map text (parseCrontab ("a" ++ nl ++ "b" ++ nl)))))
  = ["a"; "b"; ""; ""].
Proof.
  apply (proj1 (proj2 (reparse_adds_a_blank_line [] ("a" ++ nl ++ "b" ++ nl))));
    reflexivity.
Defined.

(* ================================================================== *)
(** ** The check of the host at start-up *)
(* ================================================================== *)

Lemma runJob_return {A : Type} (script : list Outcome) (s : Session) (a : A)
  (trace : list Command) :
  runJob script (s, Return a) trace = ((s, Return a), trace).
Proof. destruct script; reflexivity. Qed.

Lemma afterProbes_returns (active : bool) (s : Session) :
  exists s', afterProbes active s = (s', Return Returned).
Proof. unfold afterProbes. destruct active; eexists; reflexivity. Qed.

Lemma runJob_trace_app {A : Type} (script : list Outcome) (r : Session * Job A)
  (trace : list Command) :
  snd (runJob script r trace) = (trace ++ snd (runJob script r []))%list.
Proof.
  revert r trace. induction script as [|o rest IH]; intros [s j] trace.
  - destruct j; cbn; [now rewrite app_nil_r | reflexivity].
  - destruct j as [a|args su k]; cbn [runJob snd fst].
    + now rewrite app_nil_r.
    + rewrite IH. rewrite (IH _ ([] ++ [(args, su)])%list).
      now rewrite <- app_assoc.
Qed.

Lemma probeServices_quiet (services : list string) (script : list Outcome) (s : Session) :
  Forall (fun c => snd c = false) (snd (runJob script (probeServices services s) [])) /\
  List.length (snd (runJob script (probeServices services s) []))
    <= List.length services.
Proof.
  revert script s. induction services as [|name rest IH]; intros script s.
  - cbn [probeServices]. destruct (afterProbes_returns false s) as [s' ->].
    rewrite runJob_return. cbn. split; [constructor | lia].
  - cbn [probeServices]. destruct script as [|o script'].
    + cbn. split; [repeat constructor | lia].
    + cbn [runJob snd fst]. rewrite runJob_trace_app. cbn [app].
      assert (Hnext : Forall (fun c => snd c = false)
                (snd (runJob script'
                   match o with
                   | Resolved res =>
                       if reportsActive res then afterProbes true s
                       else probeServices rest s
                   | Rejected _ => probeServices rest s
                   end [])) /\
              List.length (snd (runJob script'
                   match o with
                   | Resolved res =>
                       if reportsActive res then afterProbes true s
                       else probeServices rest s
                   | Rejected _ => probeServices rest s
                   end [])) <= List.length rest).
      { destruct o as [res|err]; [destruct (reportsActive res)|]; try apply IH.
        destruct (afterProbes_returns true s) as [s' ->].
        rewrite runJob_return. cbn. split; [constructor | lia]. }
      destruct Hnext as [H1 H2]. split.
      * constructor; [reflexivity | exact H1].
      * cbn [List.length]. lia.
Qed.

(** X10.  [checkCronAvailable] never asks for elevation and issues at
    most four commands, whatever the host answers.  It throws only when
    [which crontab] fails, after one command.  When [which systemctl]
    fails it reports the cron as available without probing a service.
    Otherwise it probes [cron], then [crond] only if [cron] did not answer
    [active]; it reports the cron as available when one of them did, and
    else warns that no service is active, without throwing. *)
Theorem checkCronAvailable_outcomes (s : Session) :
  (forall script,
     Forall (fun c => snd c = false) (snd (runJob script (checkCronAvailable s) [])) /\
     List.length (snd (runJob script (checkCronAvailable s) [])) <= 4) /\
  (forall err,
     let r := runJob [Rejected err] (checkCronAvailable s) [] in
     snd (fst r) = Return (Threw (jsError "crontab-missing")) /\
     status (fst (fst r)) = "Cron not available" /\
     error (fst (fst r)) <> None /\
     map fst (snd r) = [["which"; "crontab"]]) /\
  (forall ok err,
     let r := runJob [Resolved ok; Rejected err] (checkCronAvailable s) [] in
     snd (fst r) = Return Returned /\
     status (fst (fst r)) = "Cron available" /\
     error (fst (fst r)) = None /\
     map fst (snd r) = [["which"; "crontab"]; ["which"; "systemctl"]]) /\
  (forall ok ok' o3 o4,
     let r := runJob [Resolved ok; Resolved ok'; o3; o4] (checkCronAvailable s) [] in
     snd (fst r) = Return Returned /\
     status (fst (fst r))
       = (if saysActive o3 || saysActive o4
          then "Cron available" else "Cron service not active") /\
     (error (fst (fst r)) = None <-> saysActive o3 || saysActive o4 = true) /\
     map fst (snd r)
       = ([["which"; "crontab"]; ["which"; "systemctl"];
           ["systemctl"; "is-active"; "cron"]]
          ++ (if saysActive o3 then [] else [["systemctl"; "is-active"; "crond"]]))%list).
Proof.
  split; [|split; [|split]].
  - intros script. unfold checkCronAvailable.
    destruct script as [|o1 script]; [cbn; split; [repeat constructor | lia]|].
    cbn [runJob snd fst]. rewrite runJob_trace_app. cbn [app].
    destruct o1 as [ok|err]; cbn [afterWhichCrontab].
    + destruct script as [|o2 script]; [cbn; split; [repeat constructor | lia]|].
      cbn [runJob snd fst]. rewrite runJob_trace_app. cbn [app].
      destruct o2 as [ok'|err']; cbn [afterWhichSystemctl].
      * destruct (probeServices_quiet ["cron"; "crond"] script
                    (clearError (showStatus "Checking for crontab and cron services..." s)))
          as [H1 H2].
        split; [repeat constructor; exact H1 | cbn [List.length] in *; lia].
      * rewrite runJob_return. cbn. split; [repeat constructor | lia].
    + rewrite runJob_return. cbn. split; [repeat constructor | lia].
  - intros err. cbn. repeat split. discriminate.
  - intros ok err. cbn. repeat split.
  - intros ok ok' o3 o4. cbv zeta. unfold checkCronAvailable.
    cbn [runJob snd fst afterWhichCrontab afterWhichSystemctl probeServices app].
    destruct o3 as [r3|e3]; cbn [saysActive].
    + destruct (reportsActive r3); cbn [orb].
      * cbn. repeat split.
      * cbn [runJob snd fst probeServices app].
        destruct o4 as [r4|e4]; cbn [saysActive].
        -- destruct (reportsActive r4); cbn; repeat split; discriminate.
        -- cbn. repeat split; discriminate.
    + cbn [orb runJob snd fst probeServices app].
      destruct o4 as [r4|e4]; cbn [saysActive].
      * destruct (reportsActive r4); cbn; repeat split; discriminate.
      * cbn. repeat split; discriminate.
Qed.

(* ================================================================== *)
(** ** An invariant of the session *)
(* ================================================================== *)

Section Invariant.

Variable P : Session -> Prop.

Lemma settle_keeps (r : Session * Task) (others : list Pending) (trace : list Command) :
  P (fst r) -> Keeps P (snd r) -> Forall (PendingKeeps P) others ->
  WorldKeeps P (settle r others trace).
Proof.
  intros Hs Hk Ho. unfold settle. destruct Hk as [|args su k Hk]; split; cbn; auto.
  apply Forall_app. split; [exact Ho|]. constructor; [exact Hk | constructor].
Qed.

Lemma Forall_removeNth {A : Type} (Q : A -> Prop) (i : nat) (l : list A) :
  Forall Q l -> Forall Q (removeNth i l).
Proof.
  revert i. induction l as [|x rest IH]; intros i H; [destruct i; constructor|].
  inversion H; subst. destruct i; cbn; [assumption|]. constructor; auto.
Qed.

Lemma answer_keeps (i : nat) (o : Outcome) (w w' : World) :
  WorldKeeps P w -> answer i o w = Some w' -> WorldKeeps P w'.
Proof.
  intros [Hs Hp] H. unfold answer in H.
  destruct (nth_error (inflight w) i) as [p|] eqn:E; [|discriminate].
  injection H as <-.
  assert (Hk : PendingKeeps P p).
  { rewrite Forall_forall in Hp. apply Hp. eapply nth_error_In, E. }
  destruct (Hk o (session w) Hs) as [H1 H2].
  apply settle_keeps; auto. now apply Forall_removeNth.
Qed.

(** An invariant of every action and of all they leave in flight is an
    invariant of the session. *)
Lemma Evolves_invariant (s0 : Session) (w : World) :
  (forall a, KeepsFrom P (act a)) -> P s0 -> Evolves s0 w -> WorldKeeps P w.
Proof.
  intros Hact H0 Hev. induction Hev as [|a w Hev IH|i o w w' Hev IH Hans].
  - split; [exact H0 | constructor].
  - destruct IH as [Hs Hp]. destruct (Hact a (session w) Hs) as [H1 H2].
    unfold call. now apply settle_keeps.
  - eapply answer_keeps; eauto.
Qed.

End Invariant.

Lemma documentInStep_same (s s' : Session) :
  rawCrontab s' = rawCrontab s -> parsedLines s' = parsedLines s ->
  documentInStep s -> documentInStep s'.
Proof. unfold documentInStep. intros -> ->. tauto. Qed.

Lemma loadCrontab_keeps : KeepsFrom documentInStep loadCrontab.
Proof.
  intros s Hs. unfold loadCrontab. cbn [fst snd]. split.
  - now apply (documentInStep_same s).
  - constructor. intros o s1 H1. destruct o as [res|err]; cbn [fst snd].
    + split; [|constructor]. left.
      destruct (rawCrontab_loadResolved res s1) as (-> & -> & _). reflexivity.
    + split; [|constructor]. unfold loadRejected.
      destruct (loadFailureKind err).
      * now apply (documentInStep_same s1).
      * right. split; reflexivity.
      * now apply (documentInStep_same s1).
Qed.

Lemma installRejected_same (err : Failure) (s : Session) :
  documentInStep s -> documentInStep (installRejected err s).
Proof.
  apply documentInStep_same; unfold installRejected;
    destruct (isAccessDenied err); reflexivity.
Qed.

Lemma installCrontab_keeps (newContent : string) :
  KeepsFrom documentInStep (installCrontab newContent).
Proof.
  intros s Hs. unfold installCrontab. cbn [fst snd]. split.
  - now apply (documentInStep_same s).
  - constructor. intros o1 s1 H1. unfold afterMktemp.
    assert (Hfail : forall err, documentInStep (fst (installRejected err s1, Done)) /\
                                Keeps documentInStep (snd (installRejected err s1, Done))).
    { intros err. split; [now apply installRejected_same | constructor]. }
    destruct o1 as [mk|err]; [|apply Hfail].
    destruct (tmpOf mk) as [tmp|]; [|apply Hfail].
    destruct (truthy tmp); [|apply Hfail].
    cbn [fst snd]. split; [exact H1|].
    constructor. intros o2 s2 H2. unfold afterWrite.
    destruct o2 as [ok|err];
      [|split; [now apply installRejected_same | constructor]].
    cbn [fst snd]. split; [exact H2|].
    constructor. intros o3 s3 H3. unfold afterInstall.
    destruct o3 as [ok'|err];
      [|split; [now apply installRejected_same | constructor]].
    cbn [fst snd]. split; [exact H3|].
    constructor. intros o4 s4 H4. unfold afterRemove.
    destruct o4 as [ok''|err];
      [|split; [now apply installRejected_same | constructor]].
    apply loadCrontab_keeps. now apply (documentInStep_same s4).
Qed.

Lemma act_keeps (a : Action) : KeepsFrom documentInStep (act a).
Proof.
  assert (Hadd : forall expr cmd, KeepsFrom documentInStep (addEntry expr cmd)).
  { intros expr cmd s Hs. unfold addEntry. destruct (validateCron expr); cbn [negb].
    - apply installCrontab_keeps. now apply (documentInStep_same s).
    - split; [now apply (documentInStep_same s) | constructor]. }
  destruct a as [[expr cmd|parsedIndex|content]| |v|exprValue cmdValue]; cbn [act perform].
  - apply Hadd.
  - intros s Hs. unfold deleteEntryAt. now apply installCrontab_keeps.
  - intros s Hs. unfold saveEditor. now apply installCrontab_keeps.
  - apply loadCrontab_keeps.
  - intros s Hs. unfold selectUser. apply loadCrontab_keeps.
    right. split; reflexivity.
  - intros s Hs. unfold submitAdd. cbv zeta.
    destruct (negb (truthy (trim exprValue)) || negb (truthy (trim cmdValue))).
    + split; [now apply (documentInStep_same s) | constructor].
    + apply Hadd. now apply (documentInStep_same s).
Qed.

(** X11.  From a session whose raw content and parsed lines belong
    together (the lines are the parse of the content, or both are empty, as
    when the page starts), every session reached by adding, deleting,
    saving, refreshing and selecting a user, with the commands in flight
    answering in any order and with any outcome, is such a session again:
    the list never shows lines of another content than the one held. *)
Theorem document_stays_in_step (s0 : Session) (w : World) :
  documentInStep s0 -> Evolves s0 w -> documentInStep (session w).
Proof.
  intros H0 Hev.
  apply (Evolves_invariant documentInStep s0 w act_keeps H0 Hev).
Qed.

Lemma document_stays_in_step_witness :
  documentInStep
    (session (call (act (Mutate (Delete 0)))
                (call (act (Select "bob")) (idle (initialSession (Some "alice") None))))).
Proof.
  apply (document_stays_in_step (initialSession (Some "alice") None)).
  - right. split; reflexivity.
  - do 2 constructor. constructor.
Defined.

(* ================================================================== *)
(** ** Answers that arrive late *)
(* ================================================================== *)

(** X12.  A load is not tied to the user it was started for.  When a load
    is in flight, another user is selected, and the answer to the second
    load arrives before the answer to the first, the document ends up being
    what the first command returned, for the user selected before, while
    the selector and the status name the user selected now. *)
Theorem late_answer_replaces_the_document
  (s : Session) (v : string) (resOld resNew : SpawnValue) :
  let started := call (act (Select v)) (call (act Refresh) (idle s)) in
  exists w1 w2,
    answer 1 (Resolved resNew) started = Some w1 /\
    answer 0 (Resolved resOld) w1 = Some w2 /\
    inflight w2 = [] /\
    map fst (issued w2)
      = [match getUserForCrontabFlag s with
         | Some userFlag => ["crontab"; "-u"; userFlag; "-l"]
         | None => ["crontab"; "-l"]
         end;
         match getUserForCrontabFlag (session started) with
         | Some userFlag => ["crontab"; "-u"; userFlag; "-l"]
         | None => ["crontab"; "-l"]
         end] /\
    rawCrontab (session w2) = loadedText resOld /\
    parsedLines (session w2) = parseCrontab (loadedText resOld) /\
    userSelect (session w2) = Some v /\
    status (session w2) = "Crontab loaded for " ++ userDisplayName (session started).
Proof.
  cbv zeta. do 2 eexists. split; [reflexivity|]. split; [reflexivity|].
  cbn [inflight issued session settle snd fst removeNth app map].
  repeat split; apply rawCrontab_loadResolved.
Qed.

(* ================================================================== *)
(** ** The validator counts words *)
(* ================================================================== *)

Lemma filter_truthy_decompose (l : list string) :
  filter truthy l = (filter truthy [hd "" l] ++ filter truthy (tl l))%list.
Proof. destruct l as [|x rest]; [reflexivity|]. cbn. destruct (truthy x); reflexivity. Qed.

Lemma hd_consHead (c : ascii) (l : list string) :
  hd "" (consHead c l) = String c (hd "" l).
Proof. destruct l; reflexivity. Qed.

Lemma tl_consHead (c : ascii) (l : list string) : tl (consHead c l) = tl l.
Proof. destruct l; reflexivity. Qed.

(** Trailing white space changes neither the first field nor the words
    among the others. *)
Lemma splitWsFrom_trimEnd (s : string) (b : bool) :
  hd "" (splitWsFrom b (trimEnd s)) = hd "" (splitWsFrom b s) /\
  filter truthy (tl (splitWsFrom b (trimEnd s)))
  = filter truthy (tl (splitWsFrom b s)).
Proof.
  revert b. induction s as [|c r IH]; intros b; [split; reflexivity|].
  assert (Hall : forall b', filter truthy (splitWsFrom b' (trimEnd r))
                            = filter truthy (splitWsFrom b' r)).
  { intros b'. destruct (IH b') as [H1 H2].
    rewrite (filter_truthy_decompose (splitWsFrom b' (trimEnd r))),
            (filter_truthy_decompose (splitWsFrom b' r)).
    now rewrite H1, H2. }
  cbn [trimEnd]. destruct (isWhiteSpace c) eqn:Hc; cbn [andb].
  - destruct (isEmpty (trimEnd r)) eqn:He.
    + apply isEmpty_true in He. cbn [splitWsFrom]. rewrite Hc.
      destruct (IH true) as [H1 H2]. specialize (Hall true).
      rewrite He in H1, H2, Hall. cbn in H1, H2, Hall.
      destruct b; cbn [hd tl]; split; auto.
    + cbn [splitWsFrom]. rewrite Hc. destruct b; cbn [hd tl].
      * apply IH.
      * split; [reflexivity | apply Hall].
  - cbn [splitWsFrom]. rewrite Hc. rewrite !hd_consHead, !tl_consHead.
    destruct (IH false) as [H1 H2]. now rewrite H1, H2.
Qed.

Lemma wordsFrom_any (b : bool) (s : string) :
  filter truthy (splitWsFrom b s) = filter truthy (splitWsFrom false s).
Proof.
  destruct b; [|reflexivity]. destruct s as [|c r]; [reflexivity|].
  cbn [splitWsFrom]. destruct (isWhiteSpace c); reflexivity.
Qed.

Lemma wordsOf_trimStart (s : string) : wordsOf (trimStart s) = wordsOf s.
Proof.
  unfold wordsOf, splitWs. induction s as [|c r IH]; [reflexivity|].
  destruct (isWhiteSpace c) eqn:Hc.
  - assert (Ht : trimStart (String c r) = trimStart r) by (simpl; now rewrite Hc).
    rewrite Ht, IH. cbn [splitWsFrom]. rewrite Hc.
    cbn [filter truthy isEmpty negb]. now rewrite (wordsFrom_any true).
  - now rewrite trimStart_fixed.
Qed.

Lemma wordsOf_trim (s : string) : wordsOf (trim s) = wordsOf s.
Proof.
  rewrite <- (wordsOf_trimStart s). unfold trim, wordsOf, splitWs.
  destruct (splitWsFrom_trimEnd (trimStart s) false) as [H1 H2].
  rewrite (filter_truthy_decompose (splitWsFrom false (trimEnd (trimStart s)))),
          (filter_truthy_decompose (splitWsFrom false (trimStart s))).
  now rewrite H1, H2.
Qed.

Lemma filter_truthy_nonEmpty (l : list string) :
  nonEmptyFields l -> filter truthy l = l.
Proof.
  intros H. induction H as [|x rest Hx _ IH]; [reflexivity|].
  cbn. apply truthy_true in Hx. now rewrite Hx, IH.
Qed.

(** X13.  [validateCron] counts the words of the expression and looks at
    nothing else: it is true exactly when the expression holds between 5
    and 7 runs of characters other than white space, whatever they are,
    and two expressions with the same number of words are both valid or
    both invalid. *)
Theorem validateCron_counts_words (expr other : string) :
  (validateCron expr = true <-> 5 <= List.length (wordsOf expr) <= 7) /\
  (List.length (wordsOf expr) = List.length (wordsOf other) ->
     validateCron expr = validateCron other).
Proof.
  assert (Hmain : forall e,
     validateCron e = true <-> 5 <= List.length (wordsOf e) <= 7).
  { intros e. rewrite <- (wordsOf_trim e). unfold validateCron, wordsOf. cbv zeta.
    destruct (trim e) as [|c r] eqn:E.
    - cbn. split; [discriminate | lia].
    - rewrite <- E. assert (Hne : trim e <> "") by congruence.
      pose proof (splitWs_trim_nonEmpty e Hne) as Hf.
      rewrite (filter_truthy_nonEmpty _ Hf).
      apply forallb_truthy in Hf. rewrite Hf.
      destruct ((List.length (splitWs (trim e)) <? 5)
                || (7 <? List.length (splitWs (trim e))))%nat eqn:Hn.
      + apply orb_true_iff in Hn. rewrite !Nat.ltb_lt in Hn.
        split; [discriminate | lia].
      + apply orb_false_iff in Hn. rewrite !Nat.ltb_ge in Hn.
        split; [lia | reflexivity]. }
  split; [apply Hmain|].
  intros Hlen. destruct (validateCron expr) eqn:E1, (validateCron other) eqn:E2;
    try reflexivity.
  - apply Hmain in E1. rewrite Hlen in E1. apply Hmain in E1. congruence.
  - apply Hmain in E2. rewrite <- Hlen in E2. apply Hmain in E2. congruence.
Qed.

Lemma validateCron_counts_words_witness :
  validateCron "this is not a schedule" = validateCron "0 2 * * *".
Proof.
  apply (proj2 (validateCron_counts_words "this is not a schedule" "0 2 * * *")).
  reflexivity.
Defined.

(* ================================================================== *)
(** ** The users offered by the selector *)
(* ================================================================== *)

Lemma string_leb_trans (a b c : string) :
  String.leb a b = true -> String.leb b c = true -> String.leb a c = true.
Proof.
  unfold String.leb. revert b c. induction a as [|x a' IH]; intros b c.
  - destruct c; reflexivity.
  - destruct b as [|y b']; [discriminate|]. destruct c as [|z c']; [intros _ H; exact H|].
    cbn [String.compare]. unfold Ascii.compare.
    destruct (N.compare_spec (N_of_ascii x) (N_of_ascii y)) as [Exy|Lxy|Gxy];
      destruct (N.compare_spec (N_of_ascii y) (N_of_ascii z)) as [Eyz|Lyz|Gyz];
      destruct (N.compare_spec (N_of_ascii x) (N_of_ascii z)) as [Exz|Lxz|Gxz];
      try discriminate; try reflexivity; try lia.
    apply IH.
Qed.

Lemma leb_false_flip (a b : string) : String.leb a b = false -> String.leb b a = true.
Proof. intros H. destruct (String.leb_total a b) as [E|E]; congruence. Qed.

Lemma setAdd_In (x y : string) (l : list string) :
  In x (setAdd y l) <-> x = y \/ In x l.
Proof.
  unfold setAdd. destruct (existsb (String.eqb y) l) eqn:E.
  - split; [now right|]. intros [->|H]; [|exact H].
    apply existsb_exists in E. destruct E as (z & Hz & Heq).
    apply String.eqb_eq in Heq. now subst.
  - rewrite in_app_iff. cbn. intuition.
Qed.

Lemma setAdd_NoDup (y : string) (l : list string) : NoDup l -> NoDup (setAdd y l).
Proof.
  intros H. unfold setAdd. destruct (existsb (String.eqb y) l) eqn:E; [exact H|].
  apply NoDup_app; [exact H | repeat constructor; intros [] |].
  intros x Hx [->|[]].
  assert (Hex : existsb (String.eqb x) l = true)
    by (apply existsb_exists; exists x; split; [exact Hx | apply String.eqb_refl]).
  congruence.
Qed.

Lemma fold_setAdd_In (x : string) (names seen : list string) :
  In x (fold_left (fun acc name => setAdd name acc) names seen)
  <-> In x names \/ In x seen.
Proof.
  revert seen. induction names as [|n rest IH]; intros seen; cbn [fold_left].
  - cbn. tauto.
  - rewrite IH, setAdd_In. cbn. intuition.
Qed.

Lemma fold_setAdd_NoDup (names seen : list string) :
  NoDup seen -> NoDup (fold_left (fun acc name => setAdd name acc) names seen).
Proof.
  revert seen. induction names as [|n rest IH]; intros seen H; cbn [fold_left];
    [exact H|]. apply IH. now apply setAdd_NoDup.
Qed.

Lemma insertSorted_In (x y : string) (l : list string) :
  In x (insertSorted y l) <-> x = y \/ In x l.
Proof.
  induction l as [|z rest IH]; cbn [insertSorted].
  - cbn. intuition.
  - destruct (String.leb y z); cbn [In]; [intuition|]. rewrite IH. intuition.
Qed.

Lemma insertSorted_NoDup (y : string) (l : list string) :
  ~ In y l -> NoDup l -> NoDup (insertSorted y l).
Proof.
  induction l as [|z rest IH]; intros Hy Hl; cbn [insertSorted].
  - repeat constructor. intros [].
  - destruct (String.leb y z); [now constructor|].
    inversion Hl as [|? ? Hz Hrest]; subst. constructor.
    + rewrite insertSorted_In. intros [->|H]; [apply Hy; now left | contradiction].
    + apply IH; [|exact Hrest]. intros H. apply Hy. now right.
Qed.

Lemma insertSorted_ascending (y : string) (l : list string) :
  ascending l -> ascending (insertSorted y l).
Proof.
  unfold ascending. induction l as [|z rest IH]; intros H; cbn [insertSorted].
  - repeat constructor.
  - inversion H as [|? ? Hrest Hz]; subst.
    destruct (String.leb y z) eqn:E.
    + constructor; [exact H|]. constructor; [exact E|].
      rewrite Forall_forall in *. intros u Hu. apply (string_leb_trans y z u E), Hz, Hu.
    + constructor; [now apply IH|].
      rewrite Forall_forall in *. intros u Hu. apply insertSorted_In in Hu.
      destruct Hu as [->|Hu]; [now apply leb_false_flip | now apply Hz].
Qed.

Lemma sortStrings_In (x : string) (l : list string) :
  In x (sortStrings l) <-> In x l.
Proof.
  unfold sortStrings. induction l as [|y rest IH]; cbn [fold_right]; [tauto|].
  rewrite insertSorted_In, IH. cbn. intuition.
Qed.

Lemma sortStrings_NoDup (l : list string) : NoDup l -> NoDup (sortStrings l).
Proof.
  unfold sortStrings. induction 1 as [|y rest Hy Hrest IH]; cbn [fold_right];
    [constructor|].
  apply insertSorted_NoDup; [|exact IH]. now rewrite sortStrings_In.
Qed.

Lemma sortStrings_ascending (l : list string) : ascending (sortStrings l).
Proof.
  unfold sortStrings. induction l as [|y rest IH]; cbn [fold_right];
    [constructor | now apply insertSorted_ascending].
Qed.

Lemma removeNth_In (x : string) (i : nat) (l : list string) :
  In x (removeNth i l) -> In x l.
Proof.
  revert i. induction l as [|y rest IH]; intros i H; [destruct i; exact H|].
  destruct i; cbn in H; [now right|]. destruct H as [->|H]; [now left|].
  right. now apply (IH i).
Qed.

Lemma removeNth_keeps (x r : string) (i : nat) (l : list string) :
  nth_error l i = Some r -> In x l -> x <> r -> In x (removeNth i l).
Proof.
  revert i. induction l as [|y rest IH]; intros i Hn Hin Hne; [contradiction|].
  destruct i; cbn in *.
  - injection Hn as ->. destruct Hin; [congruence | assumption].
  - destruct Hin as [->|Hin]; [now left|]. right. now apply IH.
Qed.

Lemma removeNth_drops (r : string) (i : nat) (l : list string) :
  NoDup l -> nth_error l i = Some r -> ~ In r (removeNth i l).
Proof.
  revert i. induction l as [|y rest IH]; intros i Hl Hn; [destruct i; discriminate|].
  inversion Hl as [|? ? Hy Hrest]; subst. destruct i; cbn in *.
  - injection Hn as ->. exact Hy.
  - intros [->|H]; [apply Hy; eapply nth_error_In, Hn|]. now apply (IH i Hrest Hn).
Qed.

Lemma removeNth_NoDup (i : nat) (l : list string) : NoDup l -> NoDup (removeNth i l).
Proof.
  revert i. induction l as [|y rest IH]; intros i H; [destruct i; constructor|].
  inversion H as [|? ? Hy Hrest]; subst. destruct i; cbn; [exact Hrest|].
  constructor; [|now apply IH]. intros Hin. apply Hy. now apply (removeNth_In y i).
Qed.

Lemma removeNth_ascending (i : nat) (l : list string) :
  ascending l -> ascending (removeNth i l).
Proof.
  unfold ascending. revert i. induction l as [|y rest IH]; intros i H;
    [destruct i; constructor|].
  inversion H as [|? ? Hrest Hy]; subst. destruct i; cbn; [exact Hrest|].
  constructor; [now apply IH|].
  rewrite Forall_forall in *. intros u Hu. apply Hy. now apply (removeNth_In u i).
Qed.

Lemma indexOf_Some (x : string) (l : list string) (i : nat) :
  indexOf x l = Some i -> nth_error l i = Some x.
Proof.
  revert i. induction l as [|y rest IH]; intros i H; [discriminate|].
  cbn in H. destruct (String.eqb_spec y x) as [->|Hne].
  - injection H as <-. reflexivity.
  - destruct (indexOf x rest) as [j|]; [|discriminate].
    injection H as <-. cbn. now apply IH.
Qed.

Lemma indexOf_None (x : string) (l : list string) : indexOf x l = None -> ~ In x l.
Proof.
  induction l as [|y rest IH]; intros H; [intros []|].
  cbn in H. destruct (String.eqb_spec y x) as [->|Hne]; [discriminate|].
  destruct (indexOf x rest); [discriminate|].
  intros [E|Hin]; [congruence | now apply IH].
Qed.

Lemma seenBefore_In (me : option string) (x : string) :
  In x (setAdd "root"
          (if truthyOpt me
           then match me with Some u => setAdd u [] | None => [] end
           else []))
  <-> x = "root" \/ (me = Some x /\ x <> "").
Proof.
  rewrite setAdd_In. destruct me as [u|]; cbn [truthyOpt].
  - destruct (truthy u) eqn:E.
    + rewrite setAdd_In. cbn. apply truthy_true in E. split.
      * intros [H|[H|[]]]; [now left | right; subst; now split].
      * intros [H|[H Hne]]; [now left | right; left; congruence].
    + cbn. unfold truthy in E. apply negb_false_iff, isEmpty_true in E. split.
      * intros [H|[]]. now left.
      * intros [H|[H Hne]]; [now left | congruence].
  - cbn. split; [intros [H|[]]; now left | intros [H|[H _]]; [now left | discriminate]].
Qed.

(** X14.  The list of users [loadUsers] offers always begins with [root],
    holds no name twice, holds after [root] the other names in ascending
    order, and holds exactly: [root], the current user when there is one,
    and every non-blank line of the output of the command, trimmed. *)
Theorem userOptions_root_first (me : option string) (out : string) :
  hd_error (userOptions me out) = Some "root" /\
  NoDup (userOptions me out) /\
  ascending (tl (userOptions me out)) /\
  (forall x,
     In x (userOptions me out) <->
       x = "root" \/ (me = Some x /\ x <> "") \/
       (x <> "" /\ exists line, In line (splitLines out) /\ trim line = x)).
Proof.
  unfold userOptions. cbv zeta.
  set (lines := filter truthy (map trim (splitLines out))).
  set (seen0 := setAdd "root"
                  (if truthyOpt me
                   then match me with Some u => setAdd u [] | None => [] end
                   else [])).
  set (seen := fold_left (fun acc name => setAdd name acc) lines seen0).
  assert (Hseen0 : NoDup seen0).
  { unfold seen0. apply setAdd_NoDup.
    destruct (truthyOpt me); [|constructor].
    destruct me; [apply setAdd_NoDup|]; constructor. }
  assert (Hnd : NoDup (sortStrings seen))
    by (apply sortStrings_NoDup, fold_setAdd_NoDup, Hseen0).
  assert (Hasc : ascending (sortStrings seen)) by apply sortStrings_ascending.
  assert (Hmem : forall x, In x (sortStrings seen) <->
       x = "root" \/ (me = Some x /\ x <> "") \/
       (x <> "" /\ exists line, In line (splitLines out) /\ trim line = x)).
  { intros x. rewrite sortStrings_In. unfold seen. rewrite fold_setAdd_In.
    unfold seen0. rewrite seenBefore_In. unfold lines.
    rewrite filter_In, in_map_iff, truthy_true. split.
    - intros [[(line & Ht & Hl) Hne]|[H|H]]; auto.
      right. right. split; [exact Hne|]. now exists line.
    - intros [H|[H|(Hne & line & Hl & Ht)]]; auto.
      left. split; [|exact Hne]. now exists line. }
  assert (Hroot : In "root" (sortStrings seen)) by (apply Hmem; now left).
  destruct (indexOf "root" (sortStrings seen)) as [[|i]|] eqn:Ei.
  - apply indexOf_Some in Ei.
    destruct (sortStrings seen) as [|u rest] eqn:Es; [discriminate|].
    cbn in Ei. injection Ei as ->. repeat split; auto.
    + cbn [tl]. now inversion Hasc.
    + apply Hmem.
    + apply Hmem.
  - apply indexOf_Some in Ei. repeat split.
    + constructor; [now apply removeNth_drops | now apply removeNth_NoDup].
    + cbn [tl]. now apply removeNth_ascending.
    + intros [<-|H]; [now left|]. apply Hmem. now apply (removeNth_In x (S i)).
    + intros H. destruct (String.eqb_spec x "root") as [->|Hne]; [now left|].
      right. apply (removeNth_keeps x "root"); auto. now apply Hmem.
  - apply indexOf_None in Ei. contradiction.
Qed.

(* ================================================================== *)
(** ** Runs that meet a change of user, or a failing removal *)
(* ================================================================== *)

(** X15.  The install step names the user selected when the write step
    answers, not the one the content was built for: when another user is
    selected while a run is in flight, the temp file written for the first
    user is installed as the crontab of the second, with the elevation the
    new selection asks for. *)
Theorem install_targets_the_user_selected_later
  (s : Session) (newContent mkOut v : string) (ok : SpawnValue) :
  truthy (trim mkOut) = true -> v <> "" ->
  exists w1 w2,
    answer 0 (Resolved (VString mkOut)) (call (installCrontab newContent) (idle s))
      = Some w1 /\
    answer 0 (Resolved ok) (call (act (Select v)) w1) = Some w2 /\
    map fst (issued w2)
      = [mktempCmd; writeCmd (trim mkOut) newContent;
         ["crontab"; "-u"; v; "-l"];
         ["crontab"; "-u"; v; trim mkOut]] /\
    nth_error (map snd (issued w2)) 3
      = Some (match currentUser s with
              | Some me => if truthy me then negb (String.eqb v me) else true
              | None => true
              end).
Proof.
  intros H Hv. apply truthy_true in Hv.
  assert (Hflag : forall s1, userSelect s1 = Some v ->
            getUserForCrontabFlag s1 = Some v).
  { intros s1 E. unfold getUserForCrontabFlag, getSelectedUserValue.
    rewrite E, Hv. unfold orNull. cbn. now rewrite Hv. }
  unfold call, idle, installCrontab, answer.
  cbn [session inflight issued settle snd fst nth_error resume command app removeNth
       afterMktemp tmpOf].
  rewrite H.
  cbn [session inflight issued settle snd fst nth_error resume command app removeNth].
  do 2 eexists. split; [reflexivity|].
  unfold act, selectUser, loadCrontab.
  cbn [session inflight issued settle snd fst nth_error resume command app removeNth
       afterWrite].
  split; [reflexivity|]. cbn [issued map app nth_error fst snd].
  unfold installArgs, isDifferentUser.
  repeat match goal with
         | |- context [getUserForCrontabFlag ?x] => rewrite (Hflag x eq_refl)
         end.
  split; reflexivity.
Qed.

Lemma install_targets_the_user_selected_later_witness :
  exists w1 w2,
    answer 0 (Resolved (VString "/tmp/cockpit-cron-a1B2c3"))
           (call (installCrontab ("0 3 * * * /bin/a" ++ nl)) (idle loadedSession))
      = Some w1 /\
    answer 0 (Resolved (VString "")) (call (act (Select "carol")) w1) = Some w2 /\
    map fst (issued w2)
      = [mktempCmd;
         writeCmd "/tmp/cockpit-cron-a1B2c3" ("0 3 * * * /bin/a" ++ nl);
         ["crontab"; "-u"; "carol"; "-l"];
         ["crontab"; "-u"; "carol"; "/tmp/cockpit-cron-a1B2c3"]] /\
    nth_error (map snd (issued w2)) 3 = Some true.
Proof.
  exact (install_targets_the_user_selected_later loadedSession
           ("0 3 * * * /bin/a" ++ nl) "/tmp/cockpit-cron-a1B2c3" "carol" (VString "")
           eq_refl ltac:(discriminate)).
Defined.

(** X16.  When the crontab has been installed and the removal of the
    temp file is rejected, the run is reported as a failed install: the
    status is [Install failed], an error is shown (that admin access is
    required when the failure is access-denied, and else the message of the
    failure), no reload is issued, and the document in the session is the
    one from before the run. *)
Theorem failed_removal_reports_failed_install
  (s : Session) (newContent mkOut : string) (ok ok' : SpawnValue) (err : Failure) :
  truthy (trim mkOut) = true ->
  let w := installRun newContent s
             [Resolved (VString mkOut); Resolved ok; Resolved ok'; Rejected err] in
  inflight w = [] /\
  map fst (issued w)
    = [mktempCmd; writeCmd (trim mkOut) newContent; installArgs s (trim mkOut);
       removeCmd (trim mkOut)] /\
  status (session w) = "Install failed" /\
  error (session w)
    = Some (if isAccessDenied err
            then "Admin access required to write crontab for " ++ userDisplayName s ++ "."
            else "Failed to install crontab: " ++ describe err) /\
  rawCrontab (session w) = rawCrontab s /\
  parsedLines (session w) = parsedLines s.
Proof.
  intros H. cbv zeta. unfold installRun, call, idle, installCrontab. run_pipeline.
  rewrite H. run_pipeline. unfold installRejected.
  destruct (isAccessDenied err); repeat split.
Qed.

Lemma failed_removal_reports_failed_install_witness :
  status (session (installRun ("0 3 * * * /bin/a" ++ nl) loadedSession
     [Resolved (VString "/tmp/cockpit-cron-a1B2c3"); Resolved (VString "");
      Resolved (VString ""); Rejected deniedAndNoCrontab]))
  = "Install failed".
Proof.
  apply (failed_removal_reports_failed_install loadedSession ("0 3 * * * /bin/a" ++ nl)
           "/tmp/cockpit-cron-a1B2c3" (VString "") (VString "") deniedAndNoCrontab
           eq_refl).
Defined.
